(** * SGLICollect: candidate resolution and the bulk search driver

    A shallow embedding of

    - [gportal/gportal_response.py]: [GPortalResponse.to_dataframe] and
      [GPortalSearchResult.filter_results];
    - [search.py]: [get_value], [search] and [search_csv];
    - [extractors/jasmes_extractor.py]: [JASMESExtractor].

    Python floats are modelled by canonical rationals ([Qc]); integers by
    [Z]; exceptions by an error monad.  Where the code rounds (the cast to
    float32, the floating-point subtraction of the pixel search, the
    rescaling arithmetic) the rounding operation is a section variable.
    The geometry helpers [inside_polygon] and [min_distance] (module
    [gportal/utils]) and the catalogue client ([GportalApi.search]) are not
    part of the embedded sources and are taken as section variables. *)

From Stdlib Require Import ZArith QArith Qcanon String List Lia.
From stdpp Require Import base option numbers list strings gmap.

Local Open Scope string_scope.
Local Open Scope Z_scope.

(** ** Exceptions *)

Inductive exn : Type :=
| IndexError
| ValueError
| TypeError
| ExternalError (msg : string).

Inductive result (A : Type) : Type :=
| Ok (a : A)
| Raise (e : exn).

Arguments Ok {A} a.
Arguments Raise {A} e.

Global Instance result_ret : MRet result := fun _ a => Ok a.

Global Instance result_bind : MBind result := fun _ _ k r =>
  match r with
  | Ok a => k a
  | Raise e => Raise e
  end.

Definition is_none {A : Type} (o : option A) : bool :=
  match o with
  | None => true
  | Some _ => false
  end.

(** ** Catalogue records ([gportal_types]) *)

Record GPortalGeo : Type := {
  coordinates : list (Qc * Qc)          (* ring of (longitude, latitude) vertices *)
}.

Record GPortalMeta : Type := {
  sceneNumber : Z;
  cloudCoverPercentage : option Qc
}.

Record GPortalProduct : Type := {
  downloadUrl : string
}.

Record GPortalPreview : Type := {
  url : string
}.

Record GPortalProperties : Type := {
  identifier : string;
  status : string;
  resolution : string;
  orbitNumber : Z;
  meta : GPortalMeta;
  product : GPortalProduct;
  previews : list GPortalPreview
}.

Record GPortalResponse : Type := {
  type_ : string;
  geometry : GPortalGeo;
  properties : GPortalProperties
}.

(** ** Python built-ins used by [filter_results] *)

(** [max(l)]: the running maximum is replaced only by a strictly greater
    item, so the first of several equal maxima is the one kept. *)
Fixpoint py_max_from (m : Qc) (l : list Qc) : Qc :=
  match l with
  | [] => m
  | x :: l' => py_max_from (if decide (m < x)%Qc then x else m) l'
  end.

Definition py_max (l : list Qc) : result Qc :=
  match l with
  | [] => Raise ValueError
  | x :: l' => Ok (py_max_from x l')
  end.

(** [l.index(v)]: position of the first item equal to [v]. *)
Fixpoint py_index (v : Qc) (l : list Qc) : result nat :=
  match l with
  | [] => Raise ValueError
  | x :: l' =>
      if decide (x = v) then Ok O
      else j ← py_index v l'; Ok (S j)
  end.

(** [l[j]] for a non-negative [j]. *)
Definition py_getitem {A : Type} (l : list A) (j : nat) : result A :=
  match l !! j with
  | Some a => Ok a
  | None => Raise IndexError
  end.

(** [poly = np.array(poly).T] followed by [poly[0]], [poly[1]]: an n-by-2
    array transposes to its two coordinate rows; the empty array stays
    one-dimensional and empty, on which [poly[0]] is out of bounds. *)
Definition np_transpose_xy (poly : list (Qc * Qc)) : result (list Qc * list Qc) :=
  match poly with
  | [] => Raise IndexError
  | _ :: _ => Ok (map fst poly, map snd poly)
  end.

(** ** [GPortalSearchResult.filter_results] *)

Section Resolver.

(** [utils.inside_polygon xs ys px py] and [utils.min_distance point polygon]. *)
Variable inside_polygon : list Qc -> list Qc -> Qc -> Qc -> Z.
Variable min_distance : Qc * Qc -> list (Qc * Qc) -> Qc.

(** The [for f in self.results] loop of the path/scene branch. *)
Fixpoint match_path_scene (path_number scene_number : Z)
         (results : list GPortalResponse) : option GPortalResponse :=
  match results with
  | [] => None
  | f :: rest =>
      if (path_number =? orbitNumber (properties f))
         && (scene_number =? sceneNumber (meta (properties f)))
      then Some f
      else match_path_scene path_number scene_number rest
  end.

(** The loop that fills [filtered]. *)
Fixpoint collect_inside (lat lon : Qc) (results filtered : list GPortalResponse)
  : result (list GPortalResponse) :=
  match results with
  | [] => Ok filtered
  | f :: rest =>
      poly ← np_transpose_xy (coordinates (geometry f));
      if inside_polygon (fst poly) (snd poly) lon lat =? 1
      then collect_inside lat lon rest (filtered ++ [f])
      else collect_inside lat lon rest filtered
  end.

(** [min_distance(point, polygon)] with [point = [lat, lon]] for one product. *)
Definition border_distance (lat lon : Qc) (f : GPortalResponse) : Qc :=
  min_distance (lat, lon) (coordinates (geometry f)).

Definition boarder_dis (lat lon : Qc) (filtered : list GPortalResponse) : list Qc :=
  map (border_distance lat lon) filtered.

(** The containment test of the loop, on a polygon that has a vertex:
    [inside_polygon(poly[0], poly[1], lon, lat) == 1]. *)
Definition contains_point (lat lon : Qc) (f : GPortalResponse) : bool :=
  inside_polygon (map fst (coordinates (geometry f)))
                 (map snd (coordinates (geometry f))) lon lat =? 1.

Definition select_filtered (lat lon : Qc) (filtered : list GPortalResponse)
  : result (option GPortalResponse) :=
  j ← (if (1 <? length filtered)%nat
       then let dis := boarder_dis lat lon filtered in
            m ← py_max dis; py_index m dis
       else Ok O);
  if (length filtered =? 0)%nat then Ok None
  else f ← py_getitem filtered j; Ok (Some f).

Definition filter_results (results : list GPortalResponse)
           (lat lon : option Qc) (path_number scene_number : option Z)
  : result (option GPortalResponse) :=
  match results with
  | [] => Ok None
  | first :: _ =>
      if (is_none path_number || is_none scene_number)
         && (is_none lat || is_none lon)
      then Ok (Some first)
      else
        match path_number, scene_number with
        | Some p, Some s => Ok (match_path_scene p s results)
        | _, _ =>
            match lat, lon with
            | Some la, Some lo =>
                filtered ← collect_inside la lo results [];
                select_filtered la lo filtered
            | _, _ => Raise TypeError  (* not reached: excluded by the first test *)
            end
        end
  end.

End Resolver.

(** ** A state-and-exception monad for code that mutates an object in place *)

Definition SE (S A : Type) : Type := S -> S * result A.

Global Instance SE_ret {S : Type} : MRet (SE S) := fun _ a s => (s, Ok a).

Global Instance SE_bind {S : Type} : MBind (SE S) := fun _ _ k m s =>
  match m s with
  | (s', Ok a) => k a s'
  | (s', Raise e) => (s', Raise e)
  end.

Definition se_get {S : Type} : SE S S := fun s => (s, Ok s).
Definition se_modify {S : Type} (f : S -> S) : SE S unit := fun s => (f s, Ok tt).
Definition se_lift {S A : Type} (r : result A) : SE S A := fun s => (s, r).

(** ** Data frames *)

(** A cell is a number, a string or a missing value (NaN / None). *)
Inductive cell : Type :=
| CNaN
| CNum (q : Qc)
| CStr (s : string).

Global Instance cell_eq_dec : EqDecision cell.
Proof. solve_decision. Defined.

(** A frame has an ordered list of column labels and, per row position, the
    cells of that row; a label with no entry in a row reads as NaN.  Row
    labels are the positions themselves (the [RangeIndex] that [read_csv]
    and [concat(..., ignore_index=True)] produce).  Columns carry no dtype:
    any cell can be written into any column. *)
Record DataFrame : Type := {
  columns : list string;
  rows : list (gmap string cell)
}.

Definition cell_at (r : gmap string cell) (c : string) : cell :=
  default CNaN (r !! c).

Definition df_len (df : DataFrame) : nat := length (rows df).

(** [df.size]: the number of cells, rows times columns. *)
Definition df_size (df : DataFrame) : nat :=
  (length (rows df) * length (columns df))%nat.

Definition OUTPUT_COLUMNS : list string :=
  [ "identifier"; "file_status"; "resolution"; "path_number";
    "scene_number"; "download_url"; "preview_url"; "cloud_coverage" ].

(** [pd.DataFrame(columns=OUTPUT_COLUMNS)] *)
Definition empty_frame : DataFrame :=
  {| columns := OUTPUT_COLUMNS; rows := [] |}.

(** [df.index[index]]: positional lookup in the row index, with Python's
    negative positions. *)
Definition index_getitem (n : nat) (index : Z) : result nat :=
  if (0 <=? index) && (index <? Z.of_nat n) then Ok (Z.to_nat index)
  else if (- Z.of_nat n <=? index) && (index <? 0)
       then Ok (Z.to_nat (Z.of_nat n + index))
       else Raise IndexError.

(** [df.loc[label, col] = v]: writes one cell; an unknown column label is
    added after the existing ones. *)
Definition loc_set (label : nat) (col : string) (v : cell) (df : DataFrame)
  : DataFrame :=
  {| columns := if bool_decide (col ∈ columns df) then columns df
                else columns df ++ [col];
     rows := alter (insert col v) label (rows df) |}.

(** [df[c] = []] for a new column [c]: accepted on a frame without rows,
    a length mismatch otherwise. *)
Definition set_empty_column (c : string) : SE DataFrame unit := fun df =>
  match rows df with
  | [] => ({| columns := columns df ++ [c]; rows := [] |}, Ok tt)
  | _ :: _ => (df, Raise ValueError)
  end.

Fixpoint add_missing_columns (cs : list string) : SE DataFrame unit :=
  match cs with
  | [] => mret tt
  | c :: cs' =>
      df ← se_get;
      _ ← (if bool_decide (c ∈ columns df) then mret tt else set_empty_column c);
      add_missing_columns cs'
  end.

(** [pd.concat([df, j], axis=0, ignore_index=True)] for a one-row [j] over
    the output columns. *)
Definition concat_row (df : DataFrame) (j : gmap string cell) : DataFrame :=
  {| columns := columns df
                ++ filter (fun c => c ∉ columns df) OUTPUT_COLUMNS;
     rows := rows df ++ [j] |}.

(** ** [GPortalResponse.to_dataframe] *)

Definition cloud_cell (o : option Qc) : cell :=
  match o with
  | Some q => CNum q
  | None => CNaN
  end.

(** [self.properties.previews[0].url.geturl()] *)
Definition preview_url0 (self : GPortalResponse) : result string :=
  p ← py_getitem (previews (properties self)) 0; Ok (url p).

(** The dictionary literal of the append branch, evaluated in order. *)
Definition output_row (self : GPortalResponse) : result (gmap string cell) :=
  pv ← preview_url0 self;
  Ok (<["identifier" := CStr (identifier (properties self))]>
     (<["file_status" := CStr (status (properties self))]>
     (<["resolution" := CStr (resolution (properties self))]>
     (<["path_number" := CNum (Qc_of_Z (orbitNumber (properties self)))]>
     (<["scene_number" := CNum (Qc_of_Z (sceneNumber (meta (properties self))))]>
     (<["download_url" := CStr (downloadUrl (product (properties self)))]>
     (<["preview_url" := CStr pv]>
     (<["cloud_coverage" := cloud_cell (cloudCoverPercentage (meta (properties self)))]>
      (∅ : gmap string cell))))))))).

(** The body of [to_dataframe] once the local name [df] is bound to a frame
    object.  The state is that object (mutated in place by [df[c] = []] and
    by [df.loc]); the value is the frame the method returns, which in the
    append branch is a new object. *)
Definition to_dataframe_obj (self : GPortalResponse) (index : option Z)
  : SE DataFrame DataFrame :=
  index ← match index with
          | None => _ ← add_missing_columns OUTPUT_COLUMNS; mret 0
          | Some i => mret i
          end;
  df ← se_get;
  if index =? Z.of_nat (df_size df) then
    j ← se_lift (output_row self);
    mret (concat_row df j)
  else
    index ← se_lift (index_getitem (df_len df) index);
    _ ← se_modify (loc_set index "identifier" (CStr (identifier (properties self))));
    _ ← se_modify (loc_set index "file_status" (CStr (status (properties self))));
    _ ← se_modify (loc_set index "resolution" (CStr (resolution (properties self))));
    _ ← se_modify (loc_set index "path_number"
                     (CNum (Qc_of_Z (orbitNumber (properties self)))));
    _ ← se_modify (loc_set index "scene_number"
                     (CNum (Qc_of_Z (sceneNumber (meta (properties self))))));
    _ ← se_modify (loc_set index "download_url"
                     (CStr (downloadUrl (product (properties self)))));
    pv ← se_lift (preview_url0 self);
    _ ← se_modify (loc_set index "preview_url" (CStr pv));
    _ ← se_modify (loc_set index "cloud_coverage"
                     (cloud_cell (cloudCoverPercentage (meta (properties self)))));
    se_get.

(** [self.to_dataframe(df, index)]: the first component is the caller's
    frame object after the call (none when [df=None] was passed), the
    second what the call returns or raises. *)
Definition to_dataframe (self : GPortalResponse) (df : option DataFrame)
           (index : option Z) : option DataFrame * result DataFrame :=
  match df with
  | None => (None, snd (to_dataframe_obj self index empty_frame))
  | Some d => let '(d', r) := to_dataframe_obj self index d in (Some d', r)
  end.

(** What [to_dataframe] may change in the frame object it is given: with an
    explicit row position [j], only row [j]; columns are only added. *)
Definition frame_outside (j : nat) (df df' : DataFrame) : Prop :=
  df_len df' = df_len df
  /\ (forall i, i <> j -> rows df' !! i = rows df !! i)
  /\ (forall c, c ∈ columns df -> c ∈ columns df').

(** ** [search.get_value] and the row dictionary *)

(** Python truthiness of a cell: zero and the empty string are false; NaN
    is a non-zero float and is true. *)
Definition truthy (c : cell) : bool :=
  match c with
  | CNaN => true
  | CNum q => negb (bool_decide (q = 0%Qc))
  | CStr s => negb (bool_decide (s = ""))
  end.

Definition get_value (d : gmap string cell) (key : string) : option cell :=
  match d !! key with
  | Some v => if truthy v then Some v else None
  | None => None
  end.

Definition fillna0 (c : cell) : cell :=
  match c with
  | CNaN => CNum 0%Qc
  | _ => c
  end.

(** [df.iloc[i].fillna(0).to_dict()] *)
Definition iloc_fillna_to_dict (df : DataFrame) (i : nat) : gmap string cell :=
  let r := default ∅ (rows df !! i) in
  list_to_map (map (fun c => (c, fillna0 (cell_at r c))) (columns df)).

(** Truthiness of what [get_value] returned ([None] is false). *)
Definition truthy_opt (o : option cell) : bool :=
  match o with
  | Some c => truthy c
  | None => false
  end.

(** ** [search.search_csv] *)

Inductive SGLIAPIs : Type := GPORTAL | JASMES.

Record Namespace : Type := {
  api : SGLIAPIs;
  no_repeat : bool;
  download : bool
}.

Section Driver.

(** [GPortalResolution], its member [H], and
    [GPortalResolution.from_int(int(resolution))] on a cell. *)
Variable GPortalResolution : Type.
Variable H : GPortalResolution.
Variable resolution_from_int : cell -> result GPortalResolution.

(** The arguments of one [api.search] call. *)
Record Query : Type := {
  q_date : option cell;
  q_lat : option cell;
  q_lon : option cell;
  q_resolution : GPortalResolution;
  q_path_number : option cell;
  q_scene_number : option cell
}.

(** [api.search], as seen from the row that issues the call: it returns a
    product, returns [None], or raises. *)
Variable api_search : nat -> Query -> result (option GPortalResponse).

(** What the run does to the outside world, in order. *)
Inductive event : Type :=
| EvSearch (i : nat) (q : Query)      (* api.search(...) issued for row i *)
| EvProgress                          (* pbar.update(1) *)
| EvToCsv (df : DataFrame)            (* df.to_csv(args.csv, index=False) *)
| EvDownloadCsv                       (* download_csv(args) *)
| EvPrint (msg : string).

Record state : Type := {
  st_df : DataFrame;
  st_log : list event
}.

Definition emit (e : event) : SE state unit := fun st =>
  ({| st_df := st_df st; st_log := st_log st ++ [e] |}, Ok tt).

Definition to_csv : SE state unit := fun st =>
  ({| st_df := st_df st; st_log := st_log st ++ [EvToCsv (st_df st)] |}, Ok tt).

(** [result.to_dataframe(df, i)] with its return value dropped: what
    remains is the in-place effect on [df] and a possible exception. *)
Definition call_to_dataframe (r : GPortalResponse) (i : nat) : SE state unit :=
  fun st =>
    let '(d', res) := to_dataframe_obj r (Some (Z.of_nat i)) (st_df st) in
    ({| st_df := d'; st_log := st_log st |},
     match res with
     | Ok _ => Ok tt
     | Raise e => Raise e
     end).

Definition row_query (df : DataFrame) (i : nat) (res : GPortalResolution) : Query :=
  let row := iloc_fillna_to_dict df i in
  {| q_date := get_value row "date";
     q_lat := get_value row "lat";
     q_lon := get_value row "lon";
     q_resolution := res;
     q_path_number := get_value row "path_number";
     q_scene_number := get_value row "scene_number" |}.

(** Selecting the resolution of row [i]: the cell's class when the cell is
    supplied, [H] otherwise. *)
Definition row_resolution (df : DataFrame) (i : nat) : result GPortalResolution :=
  let resolution := get_value (iloc_fillna_to_dict df i) "resolution" in
  if truthy_opt resolution
  then match resolution with
       | Some c => resolution_from_int c
       | None => Ok H
       end
  else Ok H.

(** [id and args.no_repeat] for row [i]. *)
Definition row_is_skipped (args : Namespace) (df : DataFrame) (i : nat) : bool :=
  truthy_opt (get_value (iloc_fillna_to_dict df i) "identifier")
  && no_repeat args.

(** The body of the [for i in range(len(df))] loop. *)
Definition search_csv_row (args : Namespace) (i : nat) : SE state unit :=
  st ← se_get;
  resolution ← se_lift (row_resolution (st_df st) i);
  if row_is_skipped args (st_df st) i then
    emit EvProgress                                  (* continue *)
  else
    let q := row_query (st_df st) i resolution in
    _ ← emit (EvSearch i q);
    result ← se_lift (api_search i q);
    _ ← match result with
        | Some r => call_to_dataframe r i
        | None => mret tt
        end;
    _ ← emit EvProgress;
    if (i mod 100 =? 0)%nat then to_csv else mret tt.

Fixpoint search_csv_loop (args : Namespace) (range : list nat) : SE state unit :=
  match range with
  | [] => mret tt
  | i :: range' => _ ← search_csv_row args i; search_csv_loop args range'
  end.

Inductive outcome : Type :=
| Returned
| Exited (code : Z)
| Uncaught (e : exn).

(** [search_csv(args)] on the frame that [pd.read_csv(args.csv)] yields. *)
Definition search_csv (args : Namespace) (df : DataFrame) : state * outcome :=
  let st0 := {| st_df := df; st_log := [] |} in
  match api args with
  | GPORTAL =>
      match (_ ← search_csv_loop args (seq 0 (df_len df));
             _ ← to_csv;
             if download args then emit EvDownloadCsv else mret tt) st0 with
      | (st, Ok _) => (st, Returned)
      | (st, Raise e) => (st, Uncaught e)
      end
  | JASMES =>
      ({| st_df := df; st_log := [EvPrint "to be implemented"] |}, Exited 1)
  end.

End Driver.

Arguments EvSearch {GPortalResolution} i q.
Arguments EvProgress {GPortalResolution}.
Arguments EvToCsv {GPortalResolution} df.
Arguments EvDownloadCsv {GPortalResolution}.
Arguments EvPrint {GPortalResolution} msg.
Arguments st_df {GPortalResolution} s.
Arguments st_log {GPortalResolution} s.
Arguments q_date {GPortalResolution} q.
Arguments q_lat {GPortalResolution} q.
Arguments q_lon {GPortalResolution} q.
Arguments q_resolution {GPortalResolution} q.
Arguments q_path_number {GPortalResolution} q.
Arguments q_scene_number {GPortalResolution} q.
Arguments emit {GPortalResolution} e st.
Arguments to_csv {GPortalResolution} st.
Arguments call_to_dataframe {GPortalResolution} r i st.
Arguments row_query {GPortalResolution} df i res.
Arguments row_resolution {GPortalResolution} H resolution_from_int df i.
Arguments search_csv_row {GPortalResolution} H resolution_from_int api_search args i.
Arguments search_csv_loop {GPortalResolution} H resolution_from_int api_search args range.
Arguments search_csv {GPortalResolution} H resolution_from_int api_search args df.


(** ** Measures on the event log *)

Section Log.

Context {GPortalResolution : Type}.

(** Rows searched since the last [to_csv], and the largest such count seen
    so far: the work that an interruption at the worst moment loses. *)
Definition unflushed_step (acc : nat * nat) (e : event GPortalResolution)
  : nat * nat :=
  match e with
  | EvSearch _ _ => (S (fst acc), Nat.max (snd acc) (S (fst acc)))
  | EvToCsv _ => (O, snd acc)
  | _ => acc
  end.

Definition max_unflushed (log : list (event GPortalResolution)) : nat :=
  snd (fold_left unflushed_step log (O, O)).

Definition is_to_csv (e : event GPortalResolution) : bool :=
  match e with
  | EvToCsv _ => true
  | _ => false
  end.

Definition is_search_of (i : nat) (e : event GPortalResolution) : bool :=
  match e with
  | EvSearch j _ => (j =? i)%nat
  | _ => false
  end.

Definition searched_rows (log : list (event GPortalResolution)) : list nat :=
  flat_map (fun e => match e with EvSearch j _ => [j] | _ => [] end) log.

End Log.

(** ** Concrete helpers and data for the examples *)

(** Modelled from the spec: [utils.inside_polygon] is not among the embedded
    sources.  Crossing-number test over the implicitly closed ring: an edge
    counts when the horizontal ray from the point crosses it; an edge with
    both ends on one side of the ray (in particular one of zero length) is
    skipped; a ring of fewer than 3 vertices contains nothing. *)
Definition edge_crosses (px py : Qc) (e : (Qc * Qc) * (Qc * Qc)) : bool :=
  let '((ax, ay), (bx, b_y)) := e in
  negb (Bool.eqb (bool_decide (py < ay)%Qc) (bool_decide (py < b_y)%Qc))
  && bool_decide (px < (bx - ax) * (py - ay) / (b_y - ay) + ax)%Qc.

Definition inside_polygon_cn (xs ys : list Qc) (px py : Qc) : Z :=
  let vs := zip xs ys in
  if (length vs <? 3)%nat then 0
  else
    let edges := zip vs (tail vs ++ take 1 vs) in
    if Nat.odd (length (List.filter (edge_crosses px py) edges)) then 1 else 0.

Definition qc_abs_diff (a b : Qc) : Qc :=
  if decide (a < b)%Qc then (b - a)%Qc else (a - b)%Qc.

Definition qc_min (a b : Qc) : Qc :=
  if decide (a < b)%Qc then a else b.

(** A stand-in for [utils.min_distance] on axis-parallel rectangles that
    contain the point, where the border distance is the least gap to a
    side.  The point is [(lat, lon)], a vertex [(lon, lat)]. *)
Definition vertex_gap (point w : Qc * Qc) : Qc :=
  qc_min (qc_abs_diff (snd point) (fst w)) (qc_abs_diff (fst point) (snd w)).

Definition min_distance_box (point : Qc * Qc) (polygon : list (Qc * Qc)) : Qc :=
  match polygon with
  | [] => 0%Qc
  | v :: vs => fold_left (fun m w => qc_min m (vertex_gap point w)) vs (vertex_gap point v)
  end.



(** The closed ring of the square with centre [(cx, cy)] and half side [h]. *)
Definition square (cx cy h : Z) : list (Qc * Qc) :=
  [ (Qc_of_Z (cx - h), Qc_of_Z (cy - h)); (Qc_of_Z (cx + h), Qc_of_Z (cy - h));
    (Qc_of_Z (cx + h), Qc_of_Z (cy + h)); (Qc_of_Z (cx - h), Qc_of_Z (cy + h));
    (Qc_of_Z (cx - h), Qc_of_Z (cy - h)) ].

Definition footprint (name : string) (path scene : Z) (poly : list (Qc * Qc))
  : GPortalResponse :=
  {| type_ := "Feature";
     geometry := {| coordinates := poly |};
     properties :=
       {| identifier := name; status := "online"; resolution := "250m";
          orbitNumber := path;
          meta := {| sceneNumber := scene; cloudCoverPercentage := None |};
          product := {| downloadUrl := "https://example.org/" ++ name |};
          previews := [ {| url := "https://example.org/preview/" ++ name |} ] |} |}.

(** Three products around the point (lon 139, lat 35), at border distances
    1, 5 and 2. *)
Definition fp_near : GPortalResponse := footprint "A" 10 1 (square 139 35 1).
Definition fp_deep : GPortalResponse := footprint "B" 10 2 (square 139 35 5).
Definition fp_mid : GPortalResponse := footprint "C" 11 1 (square 139 35 2).

(** A product elsewhere, and one whose ring has only two vertices. *)
Definition fp_far : GPortalResponse := footprint "D" 12 7 (square 10 10 1).
Definition fp_two_vertices : GPortalResponse :=
  footprint "E" 13 3 [ (Qc_of_Z 138, Qc_of_Z 34); (Qc_of_Z 140, Qc_of_Z 36) ].
Definition fp_no_vertex : GPortalResponse := footprint "F" 14 4 [].

Definition lat35 : Qc := Qc_of_Z 35.
Definition lon139 : Qc := Qc_of_Z 139.

(** Resolution classes for the examples: 250 m (the default [H]) and 1 km. *)
Inductive example_resolution : Type := Res250 | Res1000.

Definition example_from_int (c : cell) : result example_resolution :=
  match c with
  | CNum q =>
      if bool_decide (q = Qc_of_Z 250) then Ok Res250
      else if bool_decide (q = Qc_of_Z 1000) then Ok Res1000
      else Raise ValueError
  | _ => Raise ValueError
  end.

Definition args_plain : Namespace :=
  {| api := GPORTAL; no_repeat := false; download := false |}.
Definition args_no_repeat : Namespace :=
  {| api := GPORTAL; no_repeat := true; download := false |}.

Definition search_none (i : nat) (q : Query example_resolution)
  : result (option GPortalResponse) := Ok None.

(** A catalogue that is unreachable for row 0 and answers every other row. *)
Definition search_fails_at_0 (i : nat) (q : Query example_resolution)
  : result (option GPortalResponse) :=
  match i with
  | O => Raise (ExternalError "connection refused")
  | S _ => Ok (Some fp_deep)
  end.

Definition search_deep (i : nat) (q : Query example_resolution)
  : result (option GPortalResponse) := Ok (Some fp_deep).

Definition query_columns : list string :=
  [ "date"; "lat"; "lon"; "identifier" ].

Definition query_row (ident : string) : gmap string cell :=
  <["date" := CStr "2020-01-01"]>
  (<["lat" := CNum lat35]>
  (<["lon" := CNum lon139]>
  (if bool_decide (ident = "") then ∅ else {["identifier" := CStr ident]}))).

(** Two pending rows. *)
Definition table_two : DataFrame :=
  {| columns := query_columns; rows := [query_row ""; query_row ""] |}.

(** A done row between two pending ones. *)
Definition table_done_middle : DataFrame :=
  {| columns := query_columns;
     rows := [query_row ""; query_row "X123"; query_row ""] |}.

(** 103 rows of which rows 0 and 100 already carry an identifier. *)
Definition table_103 : DataFrame :=
  {| columns := query_columns;
     rows := map (fun i => if bool_decide (i = 0 ∨ i = 100)%nat
                           then query_row "X123" else query_row "")
                 (seq 0 103) |}.

(** A query on the equator: latitude 0.0, a missing path number and an
    empty scene number. *)
Definition equator_row : gmap string cell :=
  <["date" := CStr "2020-01-01"]>
  (<["lat" := CNum 0%Qc]>
  (<["lon" := CNum lon139]>
  (<["path_number" := CNaN]>
  (<["scene_number" := CStr ""]> (∅ : gmap string cell))))).

Definition table_equator : DataFrame :=
  {| columns := [ "date"; "lat"; "lon"; "path_number"; "scene_number" ];
     rows := [equator_row] |}.

(** One resolved row over the eight output columns. *)
Definition table_one_output : DataFrame :=
  {| columns := OUTPUT_COLUMNS;
     rows := [ <["identifier" := CStr "OLD"]> (∅ : gmap string cell) ] |}.


(** The eight cell writes of the update branch of [to_dataframe], in their
    order, as one change of a row; [pv] is the first preview's address. *)
Definition write_fields (self : GPortalResponse) (pv : string)
           (r : gmap string cell) : gmap string cell :=
  <["cloud_coverage" := cloud_cell (cloudCoverPercentage (meta (properties self)))]>
  (<["preview_url" := CStr pv]>
  (<["download_url" := CStr (downloadUrl (product (properties self)))]>
  (<["scene_number" := CNum (Qc_of_Z (sceneNumber (meta (properties self))))]>
  (<["path_number" := CNum (Qc_of_Z (orbitNumber (properties self)))]>
  (<["resolution" := CStr (resolution (properties self))]>
  (<["file_status" := CStr (status (properties self))]>
  (<["identifier" := CStr (identifier (properties self))]> r))))))).

(** The cell of row [i] in column [c], none when the row or the cell is
    not there. *)
Definition cell_lookup (df : DataFrame) (i : nat) (c : string) : option cell :=
  r ← rows df !! i; r !! c.

(** What a run may do to the table it was given: the rows stay as many,
    the columns stay in place (new ones come after them), and no cell
    outside the eight output columns changes. *)
Definition preserves_inputs (df df' : DataFrame) : Prop :=
  df_len df' = df_len df
  /\ columns df `prefix_of` columns df'
  /\ (forall i c, c ∉ OUTPUT_COLUMNS -> cell_lookup df' i c = cell_lookup df i c).

(** ** [GPortalResponse.save] *)

(** [self.save(path)].  [on_disk] is the frame [pd.read_csv(path)] yields,
    none when the read raises (the bare [except] turns every failure into
    [df = None]).  The value is the frame that is handed to [df.to_csv(path)]
    and returned; when [to_dataframe] raises, nothing is written. *)
Definition save (self : GPortalResponse) (on_disk : option DataFrame)
  : result DataFrame :=
  snd (to_dataframe self on_disk None).

(** ** More measures on the event log *)

Section LogProgress.

Context {GPortalResolution : Type}.

Definition is_progress (e : event GPortalResolution) : bool :=
  match e with
  | EvProgress => true
  | _ => false
  end.

(** The position of the progress bar: the number of [pbar.update(1)] calls. *)
Definition progress_count (log : list (event GPortalResolution)) : nat :=
  length (List.filter is_progress log).

End LogProgress.

(** ** [search.search]: one query from the command line *)

Inductive search_event : Type :=
| SePrint (msg : string)                 (* print(msg) *)
| SePrintProduct (r : GPortalResponse)   (* result.print() *)
| SeDownload (download_url : string).    (* download(args) with args.download_url *)

(** How a call of [search] ends.  Calling [result.print()] on [None] is an
    [AttributeError]. *)
Inductive search_outcome : Type :=
| SearchReturned
| SearchExited (code : Z)
| SearchAttributeError
| SearchUncaught (e : exn).

(** [GPortalResponse.print]: the eight fields are formatted before anything
    is printed, so a product without previews prints nothing. *)
Definition print_product (r : GPortalResponse) : result search_event :=
  _ ← preview_url0 r; Ok (SePrintProduct r).

(** [search(args)], where [found] is what [api.search(...)] does for the
    arguments given on the command line. *)
Definition search (found : result (option GPortalResponse)) (args : Namespace)
  : list search_event * search_outcome :=
  match api args with
  | JASMES => ([SePrint "to be implemented"], SearchExited 1)
  | GPORTAL =>
      match found with
      | Raise e => ([], SearchUncaught e)
      | Ok None => ([SePrint "returned results: "], SearchAttributeError)
      | Ok (Some r) =>
          match print_product r with
          | Raise e => ([SePrint "returned results: "], SearchUncaught e)
          | Ok printed =>
              (([SePrint "returned results: "; printed]
                ++ (if download args
                    then [SeDownload (downloadUrl (product (properties r)))]
                    else []))%list,
               SearchReturned)
          end
      end
  end.

(** ** [extractors/jasmes_extractor.py] *)

(** What can go wrong while reading a pixel. *)
Inductive extractor_error : Type :=
| KeyError (key : string)            (* nc.variables[key] *)
| AttributeError (attr : string)     (* data.attr *)
| GridIndexError.                    (* array[row, col] *)

Inductive extracted (A : Type) : Type :=
| Extracted (a : A)
| Failed (e : extractor_error).

Arguments Extracted {A} a.
Arguments Failed {A} e.

Global Instance extracted_ret : MRet extracted := fun _ a => Extracted a.

Global Instance extracted_bind : MBind extracted := fun _ _ k r =>
  match r with
  | Extracted a => k a
  | Failed e => Failed e
  end.

(** A grid variable of the file: its values as stored (a missing value is
    NaN) and the attributes the extractor looks at, each of which may be
    absent. *)
Record NcVariable : Type := {
  var_data : list (list (option Qc));
  Minimum_valid_DN : option Qc;
  Maximum_valid_DN : option Qc;
  Error_DN : option Qc;
  No_observation_DN : option Qc;
  Rrs_scale_factor : option Qc;
  Rrs_add_offset : option Qc;
  add_offset : option Qc;
  scale_factor : option Qc
}.

Record Dataset : Type := {
  variables : gmap string NcVariable;
  Latitude : option (list Qc);       (* variables["Latitude"][:].data *)
  Longitude : option (list Qc)
}.

(** [data.attr], an [AttributeError] when the attribute is absent. *)
Definition getattr (name : string) (o : option Qc) : extracted Qc :=
  match o with
  | Some v => Extracted v
  | None => Failed (AttributeError name)
  end.

(** A comparison guarded by [hasattr]; it is false without the attribute. *)
Definition has_and (o : option Qc) (test : Qc -> bool) : bool :=
  match o with
  | Some v => test v
  | None => false
  end.

(** The mask of one value of [raw_dn], the array after the cast to
    float32.  Every comparison with NaN is false. *)
Definition dn_masked (data : NcVariable) (raw : option Qc) : bool :=
  match raw with
  | None => false
  | Some x =>
      has_and (Minimum_valid_DN data) (fun m => bool_decide (x < m)%Qc)
      || has_and (Maximum_valid_DN data) (fun m => bool_decide (m < x)%Qc)
      || has_and (Error_DN data) (fun m => bool_decide (x = m))
      || has_and (No_observation_DN data) (fun m => bool_decide (x = m))
  end.

(** [np.where(mask, np.nan, raw_dn)] on one value. *)
Definition dn_clean (data : NcVariable) (raw : option Qc) : option Qc :=
  if dn_masked data raw then None else raw.

Section Extractor.

(** [astype(np.float32)] on one value that is not NaN: the value of that
    type the cast rounds to. *)
Variable astype_float32 : Qc -> Qc.

(** [np.abs(l - target)] for an entry [l] of an axis, subtraction and
    absolute value in floating point. *)
Variable np_abs_diff : Qc -> Qc -> Qc.

(** The float32 arithmetic [(raw - add_offset) / scale_factor * scale + offset]
    on one value that is not NaN, in the order
    [rescale raw add_offset scale_factor scale offset]; the result may be
    NaN. *)
Variable rescale : Qc -> Qc -> Qc -> Qc -> Qc -> option Qc.

(** [__handle_digital_number] on a variable of the file. *)
Definition handle_digital_number_var (data : NcVariable) (rrs : bool)
  : extracted (list (list (option Qc))) :=
  let raw_dn := map (map (option_map astype_float32)) (var_data data) in
  let raw_dn := map (map (dn_clean data)) raw_dn in
  if rrs then
    scale ← getattr "Rrs_scale_factor" (Rrs_scale_factor data);
    offset ← getattr "Rrs_add_offset" (Rrs_add_offset data);
    add ← getattr "add_offset" (add_offset data);
    factor ← getattr "scale_factor" (scale_factor data);
    Extracted
      (map (map (fun raw => x ← raw; rescale x add factor scale offset)) raw_dn)
  else Extracted raw_dn.

Definition handle_digital_number (nc : Dataset) (prod : string) (rrs : bool)
  : extracted (list (list (option Qc))) :=
  match variables nc !! prod with
  | None => Failed (KeyError prod)
  | Some data => handle_digital_number_var data rrs
  end.

Definition get_lat_lon (nc : Dataset) : extracted (list Qc * list Qc) :=
  match Latitude nc with
  | None => Failed (KeyError "Latitude")
  | Some lats =>
      match Longitude nc with
      | None => Failed (KeyError "Longitude")
      | Some lons => Extracted (lats, lons)
      end
  end.

(** One of the two loops of [__find_entry]: [i] is the position of the
    head of [arr], [dist] and [index] the running minimum and its place. *)
Fixpoint find_nearest (i : nat) (arr : list Qc) (target dist : Qc) (index : Z) : Z :=
  match arr with
  | [] => index
  | l :: arr' =>
      if decide (np_abs_diff l target < dist)%Qc
      then find_nearest (S i) arr' target (np_abs_diff l target) (Z.of_nat i)
      else find_nearest (S i) arr' target dist index
  end.

Definition find_entry (lat_arr lon_arr : list Qc) (lat lon : Qc) : Z * Z :=
  (find_nearest 0 lat_arr lat (Qc_of_Z 1000) (-1),
   find_nearest 0 lon_arr lon (Qc_of_Z 1000) (-1)).

(** [array[row, col]] on a two-dimensional array, negative positions
    counting from the end. *)
Definition np_axis {A : Type} (l : list A) (k : Z) : extracted A :=
  match index_getitem (length l) k with
  | Ok j =>
      match l !! j with
      | Some a => Extracted a
      | None => Failed GridIndexError
      end
  | Raise _ => Failed GridIndexError
  end.

Definition np_index2 {A : Type} (grid : list (list A)) (row col : Z) : extracted A :=
  r ← np_axis grid row; np_axis r col.

(** [s.replace(old, new)] for a non-empty [old]: occurrences are replaced
    from left to right without overlap.  [skip] counts the characters of a
    replaced occurrence still to be dropped. *)
Fixpoint py_replace_from (skip : nat) (old new s : string) : string :=
  match s with
  | EmptyString => EmptyString
  | String c s' =>
      match skip with
      | S k => py_replace_from k old new s'
      | O =>
          if String.prefix old s
          then new ++ py_replace_from (String.length old - 1) old new s'
          else String c (py_replace_from 0 old new s')
      end
  end.

Definition py_replace (old new s : string) : string :=
  py_replace_from 0 old new s.

(** [get_pixel(lat, lon)] for the product named [prod]. *)
Definition get_pixel (nc : Dataset) (prod : string) (lat lon : Qc)
  : extracted (gmap string (option Qc)) :=
  mats ← get_lat_lon nc;
  let '(row, col) := find_entry (fst mats) (snd mats) lat lon in
  if String.prefix "NWL" prod then
    grid ← handle_digital_number nc prod false;
    v ← np_index2 grid row col;
    grid_rrs ← handle_digital_number nc prod true;
    v_rrs ← np_index2 grid_rrs row col;
    Extracted (<[py_replace "NWLR" "Rrs" prod ++ "_JASMES" := v_rrs]>
               (<[prod ++ "_JASMES" := v]> (∅ : gmap string (option Qc))))
  else
    grid ← handle_digital_number nc prod false;
    v ← np_index2 grid row col;
    Extracted (<[prod ++ "_JASMES" := v]> (∅ : gmap string (option Qc))).

End Extractor.

(** What [__find_entry] computes along one axis, in terms of the distances
    [np_abs_diff l target] as the loop computes them: [-1] when none of
    them is below 1000, and otherwise the position of the entry with the
    least computed distance, the first such position when several entries
    have that distance. *)
Definition is_least_distance_index (np_abs_diff : Qc -> Qc -> Qc)
           (arr : list Qc) (target : Qc) (j : Z) : Prop :=
  (j = -1
   /\ forall l, l ∈ arr -> (Qc_of_Z 1000 <= np_abs_diff l target)%Qc)
  \/ (exists k l,
        j = Z.of_nat k
        /\ arr !! k = Some l
        /\ (np_abs_diff l target < Qc_of_Z 1000)%Qc
        /\ (forall k' l', arr !! k' = Some l' ->
                          (np_abs_diff l target <= np_abs_diff l' target)%Qc)
        /\ (forall k' l', (k' < k)%nat -> arr !! k' = Some l' ->
                          (np_abs_diff l target < np_abs_diff l' target)%Qc)).

(** ** More data for the examples *)

(** A product without previews. *)
Definition fp_no_preview : GPortalResponse :=
  {| type_ := "Feature";
     geometry := {| coordinates := square 139 35 1 |};
     properties :=
       {| identifier := "G"; status := "online"; resolution := "250m";
          orbitNumber := 15;
          meta := {| sceneNumber := 5; cloudCoverPercentage := None |};
          product := {| downloadUrl := "https://example.org/G" |};
          previews := [] |} |}.

(** A table read from a file that has a header line and no rows. *)
Definition table_header_only : DataFrame :=
  {| columns := [ "date"; "identifier" ]; rows := [] |}.

(** Two resolved rows over the eight output columns. *)
Definition table_two_output : DataFrame :=
  {| columns := OUTPUT_COLUMNS;
     rows := [ <["identifier" := CStr "OLD0"]> (∅ : gmap string cell);
               <["identifier" := CStr "OLD1"]> (∅ : gmap string cell) ] |}.

Definition args_download : Namespace :=
  {| api := GPORTAL; no_repeat := false; download := true |}.

(** The examples hold small integers only: the cast to float32 leaves them
    as they are, and their differences are computed without rounding. *)
Definition astype_float32_small (x : Qc) : Qc := x.

Definition np_abs_diff_small (l target : Qc) : Qc := qc_abs_diff l target.

(** Exact arithmetic in place of float32, for the examples. *)
Definition rescale_exact (raw add factor scale offset : Qc) : option Qc :=
  Some ((raw - add) / factor * scale + offset)%Qc.

(** A 2-by-3 grid with valid range 0..100 and error code 255. *)
Definition var_chla : NcVariable :=
  {| var_data := [ [Some (Qc_of_Z 10); Some (Qc_of_Z 255); Some (Qc_of_Z 30)];
                   [Some (Qc_of_Z 40); Some (Qc_of_Z 101); None] ];
     Minimum_valid_DN := Some (Qc_of_Z 0);
     Maximum_valid_DN := Some (Qc_of_Z 100);
     Error_DN := Some (Qc_of_Z 255);
     No_observation_DN := None;
     Rrs_scale_factor := None;
     Rrs_add_offset := None;
     add_offset := None;
     scale_factor := None |}.

(** A 2-by-3 grid of water-leaving radiance with both pairs of scaling
    attributes and a no-observation code. *)
Definition var_nwlr : NcVariable :=
  {| var_data := [ [Some (Qc_of_Z 2); Some (Qc_of_Z 4); Some (Qc_of_Z 6)];
                   [Some (Qc_of_Z 8); Some (Qc_of_Z 999); Some (Qc_of_Z 12)] ];
     Minimum_valid_DN := None;
     Maximum_valid_DN := None;
     Error_DN := None;
     No_observation_DN := Some (Qc_of_Z 999);
     Rrs_scale_factor := Some (Qc_of_Z 3);
     Rrs_add_offset := Some (Qc_of_Z 1);
     add_offset := Some (Qc_of_Z 0);
     scale_factor := Some (Qc_of_Z 2) |}.

Definition nc_example : Dataset :=
  {| variables := <["NWLR_380" := var_nwlr]> {[ "CHLA" := var_chla ]};
     Latitude := Some [Qc_of_Z 36; Qc_of_Z 35];
     Longitude := Some [Qc_of_Z 138; Qc_of_Z 139; Qc_of_Z 140] |}.

(** * Properties *)

(** ** The error monads *)

Lemma rbind_ok {A B : Type} (a : A) (k : A -> result B) :
  (Ok a ≫= k) = k a.
Proof. reflexivity. Qed.

Lemma rbind_raise {A B : Type} (e : exn) (k : A -> result B) :
  (Raise e ≫= k) = Raise e.
Proof. reflexivity. Qed.

(** ** [max] and [index] on a list of distances *)

Lemma py_max_from_ge (l : list Qc) :
  forall m, (m <= py_max_from m l)%Qc.
Proof.
  induction l as [|x l IH]; intros m; simpl.
  - apply Qcle_refl.
  - destruct (decide (m < x)%Qc) as [Hlt|Hge].
    + eapply Qcle_trans; [apply Qclt_le_weak, Hlt | apply IH].
    + apply IH.
Qed.

Lemma py_max_from_upper (l : list Qc) :
  forall m x, x ∈ l -> (x <= py_max_from m l)%Qc.
Proof.
  induction l as [|y l IH]; intros m x Hx.
  - inversion Hx.
  - simpl. apply elem_of_cons in Hx as [->|Hx].
    + destruct (decide (m < y)%Qc) as [Hlt|Hge].
      * apply py_max_from_ge.
      * eapply Qcle_trans; [apply Qcnot_lt_le, Hge | apply py_max_from_ge].
    + apply IH, Hx.
Qed.

Lemma py_max_from_elem (l : list Qc) :
  forall m, py_max_from m l ∈ m :: l.
Proof.
  induction l as [|y l IH]; intros m; simpl.
  - apply list_elem_of_here.
  - specialize (IH (if decide (m < y)%Qc then y else m)).
    apply elem_of_cons in IH as [Heq|Hin].
    + rewrite Heq. destruct (decide (m < y)%Qc).
      * apply list_elem_of_further, list_elem_of_here.
      * apply list_elem_of_here.
    + do 2 apply list_elem_of_further. exact Hin.
Qed.

Lemma py_index_first (v : Qc) (l : list Qc) :
  v ∈ l ->
  exists j, py_index v l = Ok j /\ l !! j = Some v
            /\ forall k x, (k < j)%nat -> l !! k = Some x -> x <> v.
Proof.
  induction l as [|y l IH]; intros Hin.
  - inversion Hin.
  - simpl. destruct (decide (y = v)) as [->|Hne].
    + exists O. split; [reflexivity|]. split; [reflexivity|].
      intros k x Hk. lia.
    + apply elem_of_cons in Hin as [Heq|Hin]; [congruence|].
      destruct (IH Hin) as (j & Hj & Hlook & Hfirst).
      exists (S j). rewrite Hj. split; [reflexivity|]. split; [exact Hlook|].
      intros [|k] x Hk Hx; simpl in Hx.
      * congruence.
      * apply (Hfirst k x); [lia | exact Hx].
Qed.

(** [l.index(max(l))] is the first position that holds the largest item. *)
Lemma py_index_max (x : Qc) (l : list Qc) :
  exists j m,
    py_max (x :: l) = Ok m /\ py_index m (x :: l) = Ok j
    /\ (x :: l) !! j = Some m
    /\ (forall k y, (x :: l) !! k = Some y -> (y <= m)%Qc)
    /\ (forall k y, (k < j)%nat -> (x :: l) !! k = Some y -> (y < m)%Qc).
Proof.
  pose proof (py_max_from_elem l x) as Hel.
  destruct (py_index_first _ _ Hel) as (j & Hj & Hlook & Hfirst).
  exists j, (py_max_from x l).
  split; [reflexivity|]. split; [exact Hj|]. split; [exact Hlook|]. split.
  - intros k y Hy. apply list_elem_of_lookup_2 in Hy.
    apply elem_of_cons in Hy as [->|Hy].
    + apply py_max_from_ge.
    + apply py_max_from_upper, Hy.
  - intros k y Hk Hy.
    assert (y <= py_max_from x l)%Qc as Hle.
    { apply list_elem_of_lookup_2 in Hy as Hy'.
      apply elem_of_cons in Hy' as [->|Hy'].
      - apply py_max_from_ge.
      - apply py_max_from_upper, Hy'. }
    destruct (Qcle_lt_or_eq _ _ Hle) as [Hlt|Heq]; [exact Hlt|].
    exfalso. exact (Hfirst k y Hk Hy Heq).
Qed.

(** ** [filter_results] *)

Section ResolverProperties.

Variable inside_polygon : list Qc -> list Qc -> Qc -> Qc -> Z.
Variable min_distance : Qc * Qc -> list (Qc * Qc) -> Qc.

Lemma np_transpose_xy_cons (v : Qc * Qc) (poly : list (Qc * Qc)) :
  np_transpose_xy (v :: poly) = Ok (map fst (v :: poly), map snd (v :: poly)).
Proof. reflexivity. Qed.

(** On polygons that have a vertex the loop is a plain order-preserving
    filter by the containment test. *)
Lemma collect_inside_ok (lat lon : Qc) (results : list GPortalResponse) :
  Forall (fun f => coordinates (geometry f) <> []) results ->
  forall filtered,
    collect_inside inside_polygon lat lon results filtered
    = Ok (filtered ++ List.filter (contains_point inside_polygon lat lon) results)%list.
Proof.
  induction 1 as [|f rest Hf _ IH]; intros filtered; simpl.
  - by rewrite app_nil_r.
  - unfold contains_point at 1.
    destruct (coordinates (geometry f)) as [|v poly] eqn:Hpoly; [done|].
    rewrite np_transpose_xy_cons, rbind_ok. cbn [fst snd].
    destruct (inside_polygon _ _ lon lat =? 1).
    + rewrite IH, <- app_assoc. reflexivity.
    + apply IH.
Qed.

(** A polygon without vertices stops the loop with the array access error. *)
Lemma collect_inside_no_vertex (lat lon : Qc) (results : list GPortalResponse) :
  Exists (fun f => coordinates (geometry f) = []) results ->
  forall filtered,
    collect_inside inside_polygon lat lon results filtered = Raise IndexError.
Proof.
  induction results as [|f rest IH]; intros Hex filtered.
  - inversion Hex.
  - simpl. destruct (coordinates (geometry f)) as [|v poly] eqn:Hpoly.
    + reflexivity.
    + rewrite np_transpose_xy_cons, rbind_ok.
      assert (Exists (fun f => coordinates (geometry f) = []) rest) as Hrest.
      { inversion Hex; subst; [congruence | assumption]. }
      destruct (_ =? 1); apply IH, Hrest.
Qed.

Lemma select_filtered_nil (lat lon : Qc) :
  select_filtered min_distance lat lon [] = Ok None.
Proof. reflexivity. Qed.

Lemma select_filtered_one (lat lon : Qc) (f : GPortalResponse) :
  select_filtered min_distance lat lon [f] = Ok (Some f).
Proof. reflexivity. Qed.

Lemma select_filtered_many (lat lon : Qc) (f1 f2 : GPortalResponse)
      (l : list GPortalResponse) :
  exists j f,
    (f1 :: f2 :: l) !! j = Some f
    /\ select_filtered min_distance lat lon (f1 :: f2 :: l) = Ok (Some f)
    /\ (forall k g, (f1 :: f2 :: l) !! k = Some g ->
                    (border_distance min_distance lat lon g
                     <= border_distance min_distance lat lon f)%Qc)
    /\ (forall k g, (k < j)%nat -> (f1 :: f2 :: l) !! k = Some g ->
                    (border_distance min_distance lat lon g
                     < border_distance min_distance lat lon f)%Qc).
Proof.
  set (fs := f1 :: f2 :: l).
  destruct (py_index_max (border_distance min_distance lat lon f1)
              (map (border_distance min_distance lat lon) (f2 :: l)))
    as (j & m & Hmax & Hidx & Hlook & Hup & Hfirst).
  change (border_distance min_distance lat lon f1
          :: map (border_distance min_distance lat lon) (f2 :: l))
    with (boarder_dis min_distance lat lon fs) in *.
  unfold boarder_dis in Hlook. rewrite list_lookup_fmap in Hlook.
  destruct (fs !! j) as [f|] eqn:Hf; [|discriminate].
  simpl in Hlook. injection Hlook as Hm.
  exists j, f. split; [exact Hf|]. split.
  - unfold select_filtered.
    replace (1 <? length fs)%nat with true by reflexivity.
    cbv zeta. rewrite Hmax, rbind_ok, Hidx, rbind_ok.
    replace (length fs =? 0)%nat with false by reflexivity.
    unfold py_getitem. rewrite Hf. reflexivity.
  - rewrite Hm. split.
    + intros k g Hg. apply (Hup k). unfold boarder_dis.
      rewrite list_lookup_fmap, Hg. reflexivity.
    + intros k g Hk Hg. apply (Hfirst k); [exact Hk|]. unfold boarder_dis.
      rewrite list_lookup_fmap, Hg. reflexivity.
Qed.


(** Only the first test of [filter_results] can send a call without a
    complete path/scene pair to the geographic branch. *)
Lemma filter_results_geo_branch (first : GPortalResponse)
      (rest : list GPortalResponse) (lat lon : Qc)
      (path_number scene_number : option Z) :
  is_none path_number || is_none scene_number = true ->
  filter_results inside_polygon min_distance (first :: rest)
                 (Some lat) (Some lon) path_number scene_number
  = (collect_inside inside_polygon lat lon (first :: rest) []
     ≫= select_filtered min_distance lat lon).
Proof.
  intros Hps. unfold filter_results. rewrite Hps. cbn [is_none orb andb].
  destruct path_number, scene_number; try discriminate; reflexivity.
Qed.

(** With a complete (lat, lon) pair and no complete (path, scene) pair,
    [filter_results] keeps, in the order of the candidate set, the products
    whose polygon passes [inside_polygon(xs, ys, lon, lat) == 1].  None
    kept: no match.  One kept: that one.  Several kept: the one for which
    the call [min_distance([lat, lon], polygon)] gives the largest value,
    and among equal largest values the earliest of the kept list.  (Every
    polygon is assumed to have at least one vertex.) *)
Lemma filter_results_geographic_selection
      (results : list GPortalResponse) (lat lon : Qc)
      (path_number scene_number : option Z) :
  is_none path_number || is_none scene_number = true ->
  Forall (fun f => coordinates (geometry f) <> []) results ->
  match List.filter
          (fun f => inside_polygon (map fst (coordinates (geometry f)))
                                   (map snd (coordinates (geometry f))) lon lat =? 1)
          results with
  | [] =>
      filter_results inside_polygon min_distance results
                     (Some lat) (Some lon) path_number scene_number = Ok None
  | [f] =>
      filter_results inside_polygon min_distance results
                     (Some lat) (Some lon) path_number scene_number = Ok (Some f)
  | (_ :: _ :: _) as filtered =>
      exists j f,
        filtered !! j = Some f
        /\ filter_results inside_polygon min_distance results
                          (Some lat) (Some lon) path_number scene_number
           = Ok (Some f)
        /\ (forall k g, filtered !! k = Some g ->
                        (min_distance (lat, lon) (coordinates (geometry g))
                         <= min_distance (lat, lon) (coordinates (geometry f)))%Qc)
        /\ (forall k g, (k < j)%nat -> filtered !! k = Some g ->
                        (min_distance (lat, lon) (coordinates (geometry g))
                         < min_distance (lat, lon) (coordinates (geometry f)))%Qc)
  end.
Proof.
  intros Hps Hpoly.
  change (fun f => inside_polygon (map fst (coordinates (geometry f)))
                                  (map snd (coordinates (geometry f))) lon lat =? 1)
    with (contains_point inside_polygon lat lon).
  destruct results as [|first rest].
  - reflexivity.
  - rewrite (filter_results_geo_branch _ _ _ _ _ _ Hps).
    rewrite (collect_inside_ok _ _ _ Hpoly), rbind_ok, app_nil_l.
    destruct (List.filter _ (first :: rest)) as [|f1 [|f2 l]].
    + apply select_filtered_nil.
    + apply select_filtered_one.
    + apply select_filtered_many.
Qed.

Lemma match_path_scene_first (p s : Z) (results : list GPortalResponse) :
  match match_path_scene p s results with
  | Some f =>
      exists j,
        results !! j = Some f
        /\ orbitNumber (properties f) = p
        /\ sceneNumber (meta (properties f)) = s
        /\ forall k g, (k < j)%nat -> results !! k = Some g ->
                       ~ (orbitNumber (properties g) = p
                          /\ sceneNumber (meta (properties g)) = s)
  | None =>
      forall g, g ∈ results ->
                ~ (orbitNumber (properties g) = p
                   /\ sceneNumber (meta (properties g)) = s)
  end.
Proof.
  induction results as [|f rest IH]; simpl.
  - intros g Hg. inversion Hg.
  - destruct (andb _ _) eqn:Hm.
    + apply andb_true_iff in Hm as [Hp Hs].
      apply Z.eqb_eq in Hp, Hs.
      exists O. split; [reflexivity|]. split; [done|]. split; [done|].
      intros k g Hk. lia.
    + assert (~ (orbitNumber (properties f) = p
                 /\ sceneNumber (meta (properties f)) = s)) as Hno.
      { intros [Hp Hs]. apply andb_false_iff in Hm as [Hm|Hm];
          apply Z.eqb_neq in Hm; congruence. }
      destruct (match_path_scene p s rest) as [g|].
      * destruct IH as (j & Hj & Hp & Hs & Hfirst).
        exists (S j). split; [exact Hj|]. split; [exact Hp|]. split; [exact Hs|].
        intros [|k] h Hk Hh; simpl in Hh.
        -- injection Hh as <-. exact Hno.
        -- apply (Hfirst k h); [lia | exact Hh].
      * intros g Hg. apply elem_of_cons in Hg as [->|Hg]; [exact Hno|].
        apply IH, Hg.
Qed.

(** C2. With a complete (path, scene) pair [filter_results] returns the
    first product of the candidate set, in order, whose orbit number equals
    the path and whose scene number equals the scene, and no match when
    there is none.  The answer is the same whatever latitude and longitude
    are passed along, and whatever the geometry helpers compute: the
    geographic branch is not entered. *)
Theorem filter_results_path_scene
        (results : list GPortalResponse) (lat lon : option Qc) (p s : Z) :
  exists r,
    filter_results inside_polygon min_distance results lat lon (Some p) (Some s)
    = Ok r
    /\ filter_results inside_polygon min_distance results None None (Some p) (Some s)
       = Ok r
    /\ match r with
       | Some f =>
           exists j,
             results !! j = Some f
             /\ orbitNumber (properties f) = p
             /\ sceneNumber (meta (properties f)) = s
             /\ forall k g, (k < j)%nat -> results !! k = Some g ->
                            ~ (orbitNumber (properties g) = p
                               /\ sceneNumber (meta (properties g)) = s)
       | None =>
           forall g, g ∈ results ->
                     ~ (orbitNumber (properties g) = p
                        /\ sceneNumber (meta (properties g)) = s)
       end.
Proof.
  exists (match_path_scene p s results).
  split; [|split].
  - destruct results; reflexivity.
  - destruct results; reflexivity.
  - apply match_path_scene_first.
Qed.

(** C9. Without a complete (path, scene) pair and without a complete
    (lat, lon) pair, [filter_results] on a non-empty candidate set returns
    its first product; on the empty candidate set it returns no match,
    whatever the filter. *)
Theorem filter_results_no_filter
        (first : GPortalResponse) (rest : list GPortalResponse)
        (lat lon : option Qc) (path_number scene_number : option Z) :
  (is_none path_number || is_none scene_number)
  && (is_none lat || is_none lon) = true ->
  filter_results inside_polygon min_distance (first :: rest)
                 lat lon path_number scene_number = Ok (Some first)
  /\ forall lat' lon' path_number' scene_number',
       filter_results inside_polygon min_distance []
                      lat' lon' path_number' scene_number' = Ok None.
Proof.
  intros Hnone. split.
  - unfold filter_results. rewrite Hnone. reflexivity.
  - reflexivity.
Qed.

(** A pair of which one half is missing filters like no pair at all. *)
Lemma filter_results_half_lat_lon
      (results : list GPortalResponse) (lat lon : option Qc)
      (path_number scene_number : option Z) :
  is_none lat || is_none lon = true ->
  filter_results inside_polygon min_distance results
                 lat lon path_number scene_number
  = filter_results inside_polygon min_distance results
                   None None path_number scene_number.
Proof.
  intros Hll. destruct results as [|first rest]; [reflexivity|].
  unfold filter_results. rewrite Hll. cbn [is_none orb].
  destruct path_number, scene_number; cbn [is_none orb andb];
    try reflexivity.
Qed.

Lemma filter_results_half_path_scene
      (results : list GPortalResponse) (lat lon : option Qc)
      (path_number scene_number : option Z) :
  is_none path_number || is_none scene_number = true ->
  filter_results inside_polygon min_distance results
                 lat lon path_number scene_number
  = filter_results inside_polygon min_distance results lat lon None None.
Proof.
  intros Hps. destruct results as [|first rest]; [reflexivity|].
  unfold filter_results. rewrite Hps. cbn [is_none orb andb].
  destruct path_number, scene_number; try discriminate; reflexivity.
Qed.

(** Rings of one or two vertices never pass a containment test that
    rejects every ring of fewer than 3 vertices, so dropping them
    beforehand changes nothing. *)
Lemma filter_contains_well_formed (lat lon : Qc) (results : list GPortalResponse) :
  (forall xs ys px py, (length xs < 3)%nat -> inside_polygon xs ys px py <> 1) ->
  List.filter (contains_point inside_polygon lat lon)
    (List.filter (fun f => (3 <=? length (coordinates (geometry f)))%nat) results)
  = List.filter (contains_point inside_polygon lat lon) results.
Proof.
  intros Hsmall. induction results as [|f rest IH]; [reflexivity|].
  cbn [List.filter].
  destruct (3 <=? length (coordinates (geometry f)))%nat eqn:Hlen.
  - cbn [List.filter]. rewrite IH. reflexivity.
  - rewrite IH.
    assert (contains_point inside_polygon lat lon f = false) as ->; [|reflexivity].
    unfold contains_point. apply Z.eqb_neq, Hsmall.
    rewrite length_map. apply Nat.leb_gt in Hlen. exact Hlen.
Qed.

Lemma Forall_filter_bool {A : Type} (P : A -> Prop) (b : A -> bool) (l : list A) :
  Forall P l -> Forall P (List.filter b l).
Proof.
  induction 1 as [|x l Hx _ IH]; cbn [List.filter]; [constructor|].
  destruct (b x); [constructor|]; assumption.
Qed.

(** C3 (as the code has it).  [filter_results] raises no geometry error of
    its own and checks no polygon.  With a complete (lat, lon) pair and no
    complete (path, scene) pair: a polygon without any vertex makes the call
    raise [IndexError]; polygons of one or two vertices are handed to the
    containment test like all others, and when that test rejects every ring
    of fewer than 3 vertices the answer is the one for the candidate set
    with those products left out (no match, if nothing else is there).
    With a complete (path, scene) pair the polygons are not looked at. *)
Theorem filter_results_malformed_polygon
        (results : list GPortalResponse) (lat lon : Qc)
        (path_number scene_number : option Z) :
  (forall xs ys px py, (length xs < 3)%nat -> inside_polygon xs ys px py <> 1) ->
  is_none path_number || is_none scene_number = true ->
  (Exists (fun f => coordinates (geometry f) = []) results ->
   filter_results inside_polygon min_distance results
                  (Some lat) (Some lon) path_number scene_number
   = Raise IndexError)
  /\ (Forall (fun f => coordinates (geometry f) <> []) results ->
      filter_results inside_polygon min_distance results
                     (Some lat) (Some lon) path_number scene_number
      = filter_results inside_polygon min_distance
          (List.filter (fun f => (3 <=? length (coordinates (geometry f)))%nat)
                       results)
          (Some lat) (Some lon) path_number scene_number)
  /\ (forall p s,
        filter_results inside_polygon min_distance results
                       (Some lat) (Some lon) (Some p) (Some s)
        = Ok (match_path_scene p s results)).
Proof.
  intros Hsmall Hps. split; [|split].
  - intros Hex. destruct results as [|first rest]; [inversion Hex|].
    rewrite (filter_results_geo_branch _ _ _ _ _ _ Hps).
    rewrite (collect_inside_no_vertex _ _ _ Hex). reflexivity.
  - intros Hpoly.
    set (wf := List.filter _ results).
    assert (Forall (fun f => coordinates (geometry f) <> []) wf) as Hwf
        by (apply Forall_filter_bool, Hpoly).
    assert (List.filter (contains_point inside_polygon lat lon) wf
            = List.filter (contains_point inside_polygon lat lon) results) as Hsame
        by (apply filter_contains_well_formed, Hsmall).
    destruct results as [|first rest]; [reflexivity|].
    rewrite (filter_results_geo_branch _ _ _ _ _ _ Hps).
    rewrite (collect_inside_ok _ _ _ Hpoly), rbind_ok, app_nil_l.
    destruct wf as [|g wf'] eqn:Hwfeq.
    + rewrite <- Hsame. reflexivity.
    + rewrite (filter_results_geo_branch _ _ _ _ _ _ Hps).
      rewrite (collect_inside_ok _ _ _ Hwf), rbind_ok, app_nil_l.
      rewrite Hsame. reflexivity.
  - intros p s. destruct results; reflexivity.
Qed.

End ResolverProperties.

(** *** The resolver on the example catalogue *)

Lemma inside_polygon_cn_small (xs ys : list Qc) (px py : Qc) :
  (length xs < 3)%nat -> inside_polygon_cn xs ys px py <> 1.
Proof.
  intros Hlen. unfold inside_polygon_cn.
  assert ((length (zip xs ys) <? 3)%nat = true) as ->; [|discriminate].
  apply Nat.ltb_lt. rewrite length_zip_with. lia.
Qed.

(** A helper that reads its point as (latitude, longitude) against
    (longitude, latitude) vertices, as [min_distance_box] does, sees the
    border distances 1, 5 and 2 of the three products of the example, and
    the second is selected. *)
Example filter_results_three_squares :
  map this (boarder_dis min_distance_box lat35 lon139 [fp_near; fp_deep; fp_mid])
  = [1 # 1; 5 # 1; 2 # 1]%Q
  /\ filter_results inside_polygon_cn min_distance_box
       [fp_near; fp_deep; fp_mid] (Some lat35) (Some lon139) None None
     = Ok (Some fp_deep).
Proof. split; vm_compute; reflexivity. Qed.



Lemma filter_results_no_filter_witness :
  filter_results inside_polygon_cn min_distance_box
    [fp_near; fp_deep; fp_mid] None (Some lon139) (Some 10) None
  = Ok (Some fp_near)
  /\ forall lat' lon' path_number' scene_number',
       filter_results inside_polygon_cn min_distance_box []
                      lat' lon' path_number' scene_number' = Ok None.
Proof.
  exact (filter_results_no_filter inside_polygon_cn min_distance_box
           fp_near [fp_deep; fp_mid] None (Some lon139) (Some 10) None eq_refl).
Defined.

(** C3, refuted as stated: a product whose ring has two vertices lets the
    call return normally, with no match under the geographic filter and
    with the product itself when its path and scene are asked for as
    well. *)
Lemma malformed_polygon_returns_normally :
  length (coordinates (geometry fp_two_vertices)) = 2%nat
  /\ filter_results inside_polygon_cn min_distance_box [fp_two_vertices]
       (Some lat35) (Some lon139) None None
     = Ok None
  /\ filter_results inside_polygon_cn min_distance_box [fp_two_vertices]
       (Some lat35) (Some lon139) (Some 13) (Some 3)
     = Ok (Some fp_two_vertices).
Proof. repeat split; vm_compute; reflexivity. Qed.

Lemma filter_results_malformed_polygon_witness :
  (forall xs ys px py, (length xs < 3)%nat -> inside_polygon_cn xs ys px py <> 1)
  /\ is_none (@None Z) || is_none (@None Z) = true
  /\ filter_results inside_polygon_cn min_distance_box
       [fp_deep; fp_no_vertex] (Some lat35) (Some lon139) None None
     = Raise IndexError
  /\ filter_results inside_polygon_cn min_distance_box
       [fp_two_vertices; fp_deep] (Some lat35) (Some lon139) None None
     = filter_results inside_polygon_cn min_distance_box
         [fp_deep] (Some lat35) (Some lon139) None None.
Proof.
  split; [exact inside_polygon_cn_small|]. split; [reflexivity|]. split.
  - apply (filter_results_malformed_polygon inside_polygon_cn min_distance_box
             [fp_deep; fp_no_vertex] lat35 lon139 None None
             inside_polygon_cn_small eq_refl).
    right. left. reflexivity.
  - apply (filter_results_malformed_polygon inside_polygon_cn min_distance_box
             [fp_two_vertices; fp_deep] lat35 lon139 None None
             inside_polygon_cn_small eq_refl).
    repeat constructor; discriminate.
Defined.

(** ** The row dictionary and [get_value] *)

Lemma iloc_fillna_to_dict_lookup (df : DataFrame) (i : nat) (key : string) :
  iloc_fillna_to_dict df i !! key
  = if bool_decide (key ∈ columns df)
    then Some (fillna0 (cell_at (default ∅ (rows df !! i)) key))
    else None.
Proof.
  unfold iloc_fillna_to_dict.
  generalize (default (∅ : gmap string cell) (rows df !! i)) as r. intros r.
  induction (columns df) as [|c cs IH]; simpl.
  - rewrite lookup_empty. reflexivity.
  - rewrite lookup_insert. destruct (decide (c = key)) as [->|Hne].
    + rewrite bool_decide_eq_true_2 by apply list_elem_of_here. reflexivity.
    + rewrite IH. destruct (bool_decide (key ∈ cs)) eqn:Hin.
      * apply bool_decide_eq_true in Hin.
        rewrite bool_decide_eq_true_2 by (apply list_elem_of_further, Hin).
        reflexivity.
      * apply bool_decide_eq_false in Hin.
        rewrite bool_decide_eq_false_2; [reflexivity|].
        intros Hin'. apply elem_of_cons in Hin' as [Heq|Hin']; congruence.
Qed.

Lemma get_value_truthy (d : gmap string cell) (key : string) (v : cell) :
  get_value d key = Some v -> truthy v = true.
Proof.
  unfold get_value. destruct (d !! key) as [c|]; [|discriminate].
  destruct (truthy c) eqn:Ht; [|discriminate]. congruence.
Qed.

(** ** Frames: what a cell write leaves alone *)

Lemma loc_set_rows_ne (label i : nat) (col : string) (v : cell) (df : DataFrame) :
  i <> label -> rows (loc_set label col v df) !! i = rows df !! i.
Proof. intros Hne. simpl. apply list_lookup_alter_ne. congruence. Qed.

Lemma loc_set_columns (label : nat) (col c : string) (v : cell) (df : DataFrame) :
  c ∈ columns df -> c ∈ columns (loc_set label col v df).
Proof.
  intros Hc. simpl. destruct (bool_decide (col ∈ columns df)); [exact Hc|].
  apply elem_of_app. left. exact Hc.
Qed.

Lemma loc_set_len (label : nat) (col : string) (v : cell) (df : DataFrame) :
  df_len (loc_set label col v df) = df_len df.
Proof. unfold df_len. simpl. apply length_alter. Qed.

Lemma frame_outside_refl (j : nat) (df : DataFrame) : frame_outside j df df.
Proof. repeat split; auto. Qed.

Lemma frame_outside_loc_set (j : nat) (col : string) (v : cell) (df df' : DataFrame) :
  frame_outside j df df' -> frame_outside j df (loc_set j col v df').
Proof.
  intros (Hlen & Hrows & Hcols). split; [|split].
  - rewrite loc_set_len. exact Hlen.
  - intros i Hi. rewrite loc_set_rows_ne by exact Hi. apply Hrows, Hi.
  - intros c Hc. apply loc_set_columns, Hcols, Hc.
Qed.

Lemma index_getitem_nat (n j : nat) :
  index_getitem n (Z.of_nat j)
  = if (j <? n)%nat then Ok j else Raise IndexError.
Proof.
  unfold index_getitem.
  destruct (j <? n)%nat eqn:Hj.
  - apply Nat.ltb_lt in Hj.
    replace (0 <=? Z.of_nat j) with true by (symmetry; apply Z.leb_le; lia).
    replace (Z.of_nat j <? Z.of_nat n) with true by (symmetry; apply Z.ltb_lt; lia).
    simpl. rewrite Nat2Z.id. reflexivity.
  - apply Nat.ltb_ge in Hj.
    replace (Z.of_nat j <? Z.of_nat n) with false by (symmetry; apply Z.ltb_ge; lia).
    replace (Z.of_nat j <? 0) with false by (symmetry; apply Z.ltb_ge; lia).
    rewrite !andb_false_r. reflexivity.
Qed.

Lemma to_dataframe_obj_frame (self : GPortalResponse) (j : nat) (df : DataFrame) :
  frame_outside j df (fst (to_dataframe_obj self (Some (Z.of_nat j)) df)).
Proof.
  unfold to_dataframe_obj.
  unfold mbind, SE_bind, mret, SE_ret, se_get, se_lift, se_modify.
  destruct (Z.of_nat j =? Z.of_nat (df_size df)).
  - destruct (output_row self); apply frame_outside_refl.
  - rewrite index_getitem_nat.
    destruct (j <? df_len df)%nat; [|apply frame_outside_refl].
    destruct (preview_url0 self); cbn [fst];
      repeat apply frame_outside_loc_set; apply frame_outside_refl.
Qed.

(** ** [search_csv] *)

Section DriverProperties.

Variable GPortalResolution : Type.
Variable H : GPortalResolution.
Variable resolution_from_int : cell -> result GPortalResolution.
Variable api_search :
  nat -> Query GPortalResolution -> result (option GPortalResponse).

(** One pass through the loop body, case by case. *)
Lemma search_csv_row_unfold (args : Namespace) (i : nat)
      (st : state GPortalResolution) :
  search_csv_row H resolution_from_int api_search args i st
  = match row_resolution H resolution_from_int (st_df st) i with
    | Raise e => (st, Raise e)
    | Ok res =>
        if row_is_skipped args (st_df st) i
        then ({| st_df := st_df st;
                 st_log := (st_log st ++ [EvProgress])%list |}, Ok tt)
        else
          let q := row_query (st_df st) i res in
          let log1 := (st_log st ++ [EvSearch i q])%list in
          let after (d : DataFrame) :=
            let st2 := {| st_df := d; st_log := (log1 ++ [EvProgress])%list |} in
            if (i mod 100 =? 0)%nat then to_csv st2 else (st2, Ok tt) in
          match api_search i q with
          | Raise e => ({| st_df := st_df st; st_log := log1 |}, Raise e)
          | Ok None => after (st_df st)
          | Ok (Some r) =>
              match to_dataframe_obj r (Some (Z.of_nat i)) (st_df st) with
              | (d', Ok _) => after d'
              | (d', Raise e) => ({| st_df := d'; st_log := log1 |}, Raise e)
              end
          end
    end.
Proof.
  unfold search_csv_row.
  unfold mbind, SE_bind, mret, SE_ret, se_get, se_lift.
  destruct (row_resolution H resolution_from_int (st_df st) i) as [res|e];
    [|reflexivity].
  destruct (row_is_skipped args (st_df st) i); [reflexivity|].
  cbn [emit st_df st_log].
  destruct (api_search i _) as [[r|]|e]; [| |reflexivity].
  - unfold call_to_dataframe. cbn [st_df st_log].
    destruct (to_dataframe_obj r _ _) as [d' [d''|e]]; [|reflexivity].
    cbn [emit st_df st_log]. destruct (i mod 100 =? 0)%nat; reflexivity.
  - cbn [emit st_df st_log]. destruct (i mod 100 =? 0)%nat; reflexivity.
Qed.

Lemma search_csv_loop_app (args : Namespace) (pre post : list nat)
      (st : state GPortalResolution) :
  search_csv_loop H resolution_from_int api_search args (pre ++ post) st
  = match search_csv_loop H resolution_from_int api_search args pre st with
    | (st', Ok _) =>
        search_csv_loop H resolution_from_int api_search args post st'
    | (st', Raise e) => (st', Raise e)
    end.
Proof.
  revert st. induction pre as [|i pre IH]; intros st; [reflexivity|].
  cbn [app search_csv_loop]. unfold mbind, SE_bind.
  destruct (search_csv_row _ _ _ args i st) as [st1 [[]|e]]; [|reflexivity].
  apply IH.
Qed.

(** C7. When the search of row [i] comes back with no product ([None]),
    the loop body writes nothing: the table after the row is the table
    before it, cell for cell. *)
Theorem no_match_leaves_table (args : Namespace) (i : nat)
        (st : state GPortalResolution) :
  (forall res, api_search i (row_query (st_df st) i res) = Ok None) ->
  st_df (fst (search_csv_row H resolution_from_int api_search args i st))
  = st_df st.
Proof.
  intros Hnone. rewrite search_csv_row_unfold.
  destruct (row_resolution _ _ _ _) as [res|e]; [|reflexivity].
  destruct (row_is_skipped _ _ _); [reflexivity|].
  cbv zeta. rewrite Hnone.
  destruct (i mod 100 =? 0)%nat; reflexivity.
Qed.

Lemma searched_rows_app (l l' : list (event GPortalResolution)) :
  searched_rows (l ++ l') = (searched_rows l ++ searched_rows l')%list.
Proof. unfold searched_rows. apply flat_map_app. Qed.

Lemma to_csv_spec (st : state GPortalResolution) :
  st_df (fst (to_csv st)) = st_df st
  /\ searched_rows (st_log (fst (to_csv st))) = searched_rows (st_log st).
Proof.
  split; [reflexivity|]. cbn [to_csv fst st_log].
  rewrite searched_rows_app. cbn. apply app_nil_r.
Qed.

(** A row is skipped when skipping is on and its identifier cell holds a
    non-empty string. *)
Lemma row_is_skipped_done (args : Namespace) (df : DataFrame) (i : nat)
      (r : gmap string cell) (s : string) :
  no_repeat args = true ->
  "identifier" ∈ columns df ->
  rows df !! i = Some r ->
  r !! "identifier" = Some (CStr s) ->
  s <> "" ->
  row_is_skipped args df i = true.
Proof.
  intros Hrep Hcol Hrow Hid Hs. unfold row_is_skipped. rewrite Hrep.
  unfold get_value. rewrite iloc_fillna_to_dict_lookup.
  rewrite bool_decide_eq_true_2 by exact Hcol.
  rewrite Hrow. unfold cell_at. change (default ∅ (Some r)) with r.
  rewrite Hid. change (default CNaN (Some (CStr s))) with (CStr s).
  cbn [fillna0 truthy].
  rewrite bool_decide_eq_false_2 by exact Hs.
  cbn [negb truthy_opt truthy]. rewrite bool_decide_eq_false_2 by exact Hs.
  reflexivity.
Qed.

(** A skipped row: nothing is searched and the table is left as it is. *)
Lemma search_csv_row_skipped (args : Namespace) (i : nat)
      (st : state GPortalResolution) :
  row_is_skipped args (st_df st) i = true ->
  st_df (fst (search_csv_row H resolution_from_int api_search args i st))
  = st_df st
  /\ searched_rows
       (st_log (fst (search_csv_row H resolution_from_int api_search args i st)))
     = searched_rows (st_log st).
Proof.
  intros Hskip. rewrite search_csv_row_unfold, Hskip.
  destruct (row_resolution _ _ _ _) as [res|e]; [|split; reflexivity].
  split; [reflexivity|]. cbn [fst st_log].
  rewrite searched_rows_app. cbn. apply app_nil_r.
Qed.

(** Any row [j]: only row [j] of the table can change, only row [j] can be
    searched. *)
Lemma search_csv_row_frame (args : Namespace) (j : nat)
      (st : state GPortalResolution) :
  frame_outside j (st_df st)
    (st_df (fst (search_csv_row H resolution_from_int api_search args j st)))
  /\ exists l,
       searched_rows
         (st_log (fst (search_csv_row H resolution_from_int api_search args j st)))
       = (searched_rows (st_log st) ++ l)%list
       /\ (l = [] \/ l = [j]).
Proof.
  rewrite search_csv_row_unfold.
  destruct (row_resolution _ _ _ _) as [res|e].
  2:{ split; [apply frame_outside_refl|]. exists []. rewrite app_nil_r. auto. }
  destruct (row_is_skipped _ _ _).
  { split; [apply frame_outside_refl|]. exists []. cbn [fst st_log].
    rewrite searched_rows_app, app_nil_r. cbn. rewrite app_nil_r. auto. }
  cbv zeta.
  assert (forall d (b : bool),
             let st2 := {| st_df := d;
                           st_log := ((st_log st
                                       ++ [EvSearch j (row_query (st_df st) j res)])
                                      ++ [EvProgress])%list |} in
             st_df (fst (if b then to_csv st2 else (st2, Ok tt))) = d
             /\ searched_rows (st_log (fst (if b then to_csv st2 else (st2, Ok tt))))
                = (searched_rows (st_log st) ++ [j])%list) as Hafter.
  { intros d b st2.
    assert (searched_rows (st_log st2) = (searched_rows (st_log st) ++ [j])%list)
      as Hlog.
    { subst st2. cbn [st_log]. rewrite !searched_rows_app. cbn.
      rewrite app_nil_r. reflexivity. }
    destruct b; [|split; [reflexivity | exact Hlog]].
    destruct (to_csv_spec st2) as [Hd Hl]. rewrite Hd, Hl. split; [reflexivity | exact Hlog]. }
  destruct (api_search j _) as [[r|]|e].
  - pose proof (to_dataframe_obj_frame r j (st_df st)) as Hframe.
    destruct (to_dataframe_obj r _ _) as [d' [d''|e]]; cbn [fst] in Hframe.
    + destruct (Hafter d' (j mod 100 =? 0)%nat) as [Hd Hl].
      rewrite Hd. split; [exact Hframe|]. exists [j]. auto.
    + cbn [fst st_df st_log]. split; [exact Hframe|]. exists [j].
      rewrite searched_rows_app. auto.
  - destruct (Hafter (st_df st) (j mod 100 =? 0)%nat) as [Hd Hl].
    rewrite Hd. split; [apply frame_outside_refl|]. exists [j]. auto.
  - cbn [fst st_df st_log]. split; [apply frame_outside_refl|]. exists [j].
    rewrite searched_rows_app. auto.
Qed.

Lemma search_csv_loop_skips (args : Namespace) (i : nat)
      (r : gmap string cell) (s : string) (range : list nat) :
  no_repeat args = true ->
  r !! "identifier" = Some (CStr s) ->
  s <> "" ->
  forall st : state GPortalResolution,
    "identifier" ∈ columns (st_df st) ->
    rows (st_df st) !! i = Some r ->
    i ∉ searched_rows (st_log st) ->
    "identifier" ∈ columns
      (st_df (fst (search_csv_loop H resolution_from_int api_search args range st)))
    /\ rows (st_df (fst (search_csv_loop H resolution_from_int api_search
                           args range st))) !! i = Some r
    /\ i ∉ searched_rows
         (st_log (fst (search_csv_loop H resolution_from_int api_search
                         args range st))).
Proof.
  intros Hrep Hid Hs. induction range as [|j range IH]; intros st Hcol Hrow Hlog.
  - cbn. auto.
  - cbn [search_csv_loop]. unfold mbind, SE_bind.
    assert (let st1 := fst (search_csv_row H resolution_from_int api_search
                              args j st) in
            "identifier" ∈ columns (st_df st1)
            /\ rows (st_df st1) !! i = Some r
            /\ i ∉ searched_rows (st_log st1)) as Hstep.
    { destruct (decide (j = i)) as [->|Hne].
      - destruct (search_csv_row_skipped args i st) as [Hd Hl].
        { eapply row_is_skipped_done; eassumption. }
        cbv zeta. rewrite Hd, Hl. auto.
      - destruct (search_csv_row_frame args j st)
          as ((_ & Hrows & Hcols) & l & Hl & Hcase).
        cbv zeta. split; [apply Hcols, Hcol|]. split.
        + rewrite Hrows by congruence. exact Hrow.
        + rewrite Hl. intros Hin. apply elem_of_app in Hin as [Hin|Hin]; [done|].
          destruct Hcase as [->| ->].
          * inversion Hin.
          * apply list_elem_of_singleton in Hin. congruence. }
    destruct (search_csv_row _ _ _ args j st) as [st1 [[]|e]]; cbn [fst] in Hstep.
    + destruct Hstep as (H1 & H2 & H3). apply IH; assumption.
    + exact Hstep.
Qed.

(** C6. With skipping enabled, a row that already carries a non-empty
    identifier is never passed to the search, and after the run (however
    it ends) it holds exactly the cells it held before. *)
Theorem skip_if_done_row_untouched (args : Namespace) (df : DataFrame)
        (i : nat) (r : gmap string cell) (s : string) :
  no_repeat args = true ->
  "identifier" ∈ columns df ->
  rows df !! i = Some r ->
  r !! "identifier" = Some (CStr s) ->
  s <> "" ->
  (i ∉ searched_rows
         (st_log (fst (search_csv H resolution_from_int api_search args df))))
  /\ rows (st_df (fst (search_csv H resolution_from_int api_search args df))) !! i
     = Some r.
Proof.
  intros Hrep Hcol Hrow Hid Hs. unfold search_csv.
  destruct (api args).
  - unfold mbind, SE_bind.
    destruct (search_csv_loop_skips args i r s (seq 0 (df_len df)) Hrep Hid Hs
                {| st_df := df; st_log := [] |} Hcol Hrow)
      as (_ & Hrow' & Hlog').
    { cbn. intros Hin. inversion Hin. }
    destruct (search_csv_loop _ _ _ args _ _) as [st1 [[]|e]];
      cbn [fst] in Hrow', Hlog'.
    + destruct (to_csv_spec st1) as [Hd Hl].
      destruct (to_csv st1) as [st2 [[]|e]] eqn:Hcsv; cbn [fst] in Hd, Hl.
      * destruct (download args); cbn [fst emit mret SE_ret st_df st_log].
        -- rewrite searched_rows_app, Hl, Hd. cbn. rewrite app_nil_r. auto.
        -- rewrite Hl, Hd. auto.
      * cbn [fst]. rewrite Hl, Hd. auto.
    + cbn [fst]. auto.
  - cbn. split; [|exact Hrow]. intros Hin. inversion Hin.
Qed.

Lemma search_csv_loop_raise (args : Namespace) (i : nat) (range : list nat)
      (st st' : state GPortalResolution) (e : exn) :
  search_csv_row H resolution_from_int api_search args i st = (st', Raise e) ->
  search_csv_loop H resolution_from_int api_search args (i :: range) st
  = (st', Raise e).
Proof.
  intros Hrow. cbn [search_csv_loop]. unfold mbind, SE_bind.
  rewrite Hrow. reflexivity.
Qed.

(** C8 (as the code has it).  Take the run up to a row [i] that is not
    skipped.  If the search of row [i] returns nothing ([None]), the row
    ends normally with the table unchanged and the loop goes on.  If the
    search raises, nothing catches it: the run stops right after issuing
    that search, without the final flush, and [search_csv] ends with the
    exception uncaught. *)
Theorem search_failure_ends_run (args : Namespace) (df : DataFrame) (i : nat)
        (st : state GPortalResolution) (res : GPortalResolution) :
  api args = GPORTAL ->
  (i < df_len df)%nat ->
  search_csv_loop H resolution_from_int api_search args (seq 0 i)
                  {| st_df := df; st_log := [] |} = (st, Ok tt) ->
  row_resolution H resolution_from_int (st_df st) i = Ok res ->
  row_is_skipped args (st_df st) i = false ->
  (api_search i (row_query (st_df st) i res) = Ok None ->
   exists st',
     search_csv_loop H resolution_from_int api_search args (seq 0 (S i))
                     {| st_df := df; st_log := [] |} = (st', Ok tt)
     /\ st_df st' = st_df st)
  /\ (forall e,
        api_search i (row_query (st_df st) i res) = Raise e ->
        search_csv H resolution_from_int api_search args df
        = ({| st_df := st_df st;
              st_log := (st_log st
                         ++ [EvSearch i (row_query (st_df st) i res)])%list |},
           Uncaught e)).
Proof.
  intros Hapi Hi Hpre Hres Hskip. split.
  - intros Hnone. rewrite seq_S, search_csv_loop_app, Hpre. cbn [Nat.add].
    cbn [search_csv_loop]. unfold mbind, SE_bind.
    rewrite search_csv_row_unfold, Hres, Hskip. cbv zeta. rewrite Hnone.
    destruct (i mod 100 =? 0)%nat; cbn [to_csv mret SE_ret]; eexists;
      (split; [reflexivity|reflexivity]).
  - intros e Hraise. unfold search_csv. rewrite Hapi.
    replace (df_len df) with (i + S (df_len df - S i))%nat by lia.
    rewrite seq_app. cbn [Nat.add seq].
    unfold mbind at 1 2. unfold SE_bind at 1 2.
    rewrite search_csv_loop_app, Hpre.
    rewrite (search_csv_loop_raise args i _ st
               {| st_df := st_df st;
                  st_log := (st_log st
                             ++ [EvSearch i (row_query (st_df st) i res)])%list |}
               e).
    + reflexivity.
    + rewrite search_csv_row_unfold, Hres, Hskip. cbv zeta. rewrite Hraise.
      reflexivity.
Qed.

Variable inside_polygon : list Qc -> list Qc -> Qc -> Qc -> Z.
Variable min_distance : Qc * Qc -> list (Qc * Qc) -> Qc.

(** C10.  [get_value] on the dictionary of a row returns nothing for a
    column the table does not have and for a cell that is missing (read as
    0 after [fillna(0)]), numerically zero or the empty string; any other
    cell is returned as it is.  The query of the row is made of these
    values, so such a latitude, longitude, path or scene number reaches the
    search as not supplied; and in [filter_results] a (lat, lon) pair or a
    (path, scene) pair of which one half is not supplied filters exactly
    like a pair that is absent altogether. *)
Theorem falsy_cell_not_supplied (df : DataFrame) (i : nat) (key : string)
        (res : GPortalResolution) :
  get_value (iloc_fillna_to_dict df i) key
  = (if bool_decide (key ∈ columns df)
     then match cell_at (default ∅ (rows df !! i)) key with
          | CNaN => None
          | CNum q => if bool_decide (q = 0%Qc) then None else Some (CNum q)
          | CStr s => if bool_decide (s = "") then None else Some (CStr s)
          end
     else None)
  /\ q_lat (row_query df i res) = get_value (iloc_fillna_to_dict df i) "lat"
  /\ q_lon (row_query df i res) = get_value (iloc_fillna_to_dict df i) "lon"
  /\ q_path_number (row_query df i res)
     = get_value (iloc_fillna_to_dict df i) "path_number"
  /\ q_scene_number (row_query df i res)
     = get_value (iloc_fillna_to_dict df i) "scene_number"
  /\ (forall results lat lon path_number scene_number,
        is_none lat || is_none lon = true ->
        filter_results inside_polygon min_distance results
                       lat lon path_number scene_number
        = filter_results inside_polygon min_distance results
                         None None path_number scene_number)
  /\ (forall results lat lon path_number scene_number,
        is_none path_number || is_none scene_number = true ->
        filter_results inside_polygon min_distance results
                       lat lon path_number scene_number
        = filter_results inside_polygon min_distance results
                         lat lon None None).
Proof.
  split; [|repeat split].
  - unfold get_value. rewrite iloc_fillna_to_dict_lookup.
    destruct (bool_decide (key ∈ columns df)); [|reflexivity].
    destruct (cell_at _ key) as [|q|s]; cbn [fillna0 truthy].
    + rewrite bool_decide_eq_true_2 by reflexivity. reflexivity.
    + destruct (bool_decide (q = 0%Qc)); reflexivity.
    + destruct (bool_decide (s = "")); reflexivity.
  - apply filter_results_half_lat_lon.
  - apply filter_results_half_path_scene.
Qed.

End DriverProperties.

(** *** The driver on the example tables *)

(** The row on the equator: latitude, path and scene all reach the search
    as not supplied, the longitude as given. *)
Example row_query_equator :
  row_query table_equator 0 Res250
  = {| q_date := Some (CStr "2020-01-01");
       q_lat := None;
       q_lon := Some (CNum lon139);
       q_resolution := Res250;
       q_path_number := None;
       q_scene_number := None |}.
Proof. vm_compute. reflexivity. Qed.

Lemma skip_if_done_row_untouched_witness :
  no_repeat args_no_repeat = true
  /\ "identifier" ∈ columns table_done_middle
  /\ rows table_done_middle !! 1%nat = Some (query_row "X123")
  /\ query_row "X123" !! "identifier" = Some (CStr "X123")
  /\ "X123" <> ""
  /\ (1%nat ∉ searched_rows
        (st_log (fst (search_csv Res250 example_from_int search_deep
                        args_no_repeat table_done_middle))))
  /\ rows (st_df (fst (search_csv Res250 example_from_int search_deep
                         args_no_repeat table_done_middle))) !! 1%nat
     = Some (query_row "X123").
Proof.
  assert ("identifier" ∈ columns table_done_middle) as Hcol
      by (apply (bool_decide_eq_true_1 ("identifier" ∈ columns table_done_middle));
          vm_compute; reflexivity).
  assert (query_row "X123" !! "identifier" = Some (CStr "X123")) as Hid
      by (vm_compute; reflexivity).
  assert ("X123" <> "") as Hs by discriminate.
  split; [reflexivity|]. split; [exact Hcol|]. split; [reflexivity|].
  split; [exact Hid|]. split; [exact Hs|].
  exact (skip_if_done_row_untouched example_resolution Res250 example_from_int
           search_deep args_no_repeat table_done_middle 1 (query_row "X123")
           "X123" eq_refl Hcol eq_refl Hid Hs).
Defined.

(** In the same run the two pending rows are searched and resolved. *)
Example skip_if_done_neighbours :
  searched_rows
    (st_log (fst (search_csv Res250 example_from_int search_deep
                    args_no_repeat table_done_middle)))
  = [0%nat; 2%nat]
  /\ map (fun r => r !! "identifier")
         (rows (st_df (fst (search_csv Res250 example_from_int search_deep
                             args_no_repeat table_done_middle))))
     = [Some (CStr "B"); Some (CStr "X123"); Some (CStr "B")].
Proof. split; vm_compute; reflexivity. Qed.

Lemma no_match_leaves_table_witness :
  (forall res, search_none 0 (row_query table_two 0 res) = Ok None)
  /\ st_df (fst (search_csv_row Res250 example_from_int search_none args_plain 0
                   {| st_df := table_two; st_log := [] |}))
     = table_two.
Proof.
  split; [intros res; reflexivity|].
  exact (no_match_leaves_table example_resolution Res250 example_from_int
           search_none args_plain 0 {| st_df := table_two; st_log := [] |}
           (fun res => eq_refl)).
Defined.

(** C8, refuted as stated: the catalogue fails for row 0 of a two-row
    table; the run ends with the exception uncaught, row 1 is never
    searched and nothing is flushed. *)
Lemma search_failure_aborts_batch :
  snd (search_csv Res250 example_from_int search_fails_at_0 args_plain table_two)
  = Uncaught (ExternalError "connection refused")
  /\ searched_rows
       (st_log (fst (search_csv Res250 example_from_int search_fails_at_0
                       args_plain table_two)))
     = [0%nat]
  /\ List.filter is_to_csv
       (st_log (fst (search_csv Res250 example_from_int search_fails_at_0
                       args_plain table_two)))
     = [].
Proof. repeat split; vm_compute; reflexivity. Qed.

Lemma search_failure_ends_run_witness :
  api args_plain = GPORTAL
  /\ (0 < df_len table_two)%nat
  /\ search_csv_loop Res250 example_from_int search_fails_at_0 args_plain (seq 0 0)
       {| st_df := table_two; st_log := [] |}
     = ({| st_df := table_two; st_log := [] |}, Ok tt)
  /\ row_resolution Res250 example_from_int table_two 0 = Ok Res250
  /\ row_is_skipped args_plain table_two 0 = false
  /\ search_csv Res250 example_from_int search_fails_at_0 args_plain table_two
     = ({| st_df := table_two;
           st_log := [EvSearch 0 (row_query table_two 0 Res250)] |},
        Uncaught (ExternalError "connection refused")).
Proof.
  assert (0 < df_len table_two)%nat as Hlen by (vm_compute; lia).
  assert (row_resolution Res250 example_from_int table_two 0 = Ok Res250) as Hres
      by (vm_compute; reflexivity).
  assert (row_is_skipped args_plain table_two 0 = false) as Hskip
      by (vm_compute; reflexivity).
  split; [reflexivity|]. split; [exact Hlen|]. split; [reflexivity|].
  split; [exact Hres|]. split; [exact Hskip|].
  exact (proj2 (search_failure_ends_run example_resolution Res250
                  example_from_int search_fails_at_0 args_plain table_two 0
                  {| st_df := table_two; st_log := [] |} Res250
                  eq_refl Hlen eq_refl Hres Hskip)
               (ExternalError "connection refused") eq_refl).
Defined.

(** C5, at the failing input: 103 rows with skipping enabled, rows 0 and
    100 already done, every search resolving its row.  No row reaches the
    checkpoint test at a multiple of 100, so the only flush of the run is
    the final one: 101 rows are searched and written into the table before
    anything is saved. *)
Example checkpoint_missed_on_done_rows :
  snd (search_csv Res250 example_from_int search_deep args_no_repeat table_103)
  = Returned
  /\ length (searched_rows
               (st_log (fst (search_csv Res250 example_from_int search_deep
                               args_no_repeat table_103))))
     = 101%nat
  /\ length (List.filter
               (fun r => bool_decide (r !! "identifier" = Some (CStr "B")))
               (rows (st_df (fst (search_csv Res250 example_from_int search_deep
                                    args_no_repeat table_103)))))
     = 101%nat
  /\ length (List.filter is_to_csv
               (st_log (fst (search_csv Res250 example_from_int search_deep
                               args_no_repeat table_103))))
     = 1%nat
  /\ max_unflushed
       (st_log (fst (search_csv Res250 example_from_int search_deep
                       args_no_repeat table_103)))
     = 101%nat.
Proof. repeat split; vm_compute; reflexivity. Qed.

(** C4, at the failing input: a table of one row over the eight output
    columns and row position 1, where no row exists yet.  The position is
    compared with the number of cells (8), not of rows (1), so the append
    branch is not taken and the row lookup raises; the table is unchanged. *)
Example to_dataframe_append_position_raises :
  df_len table_one_output = 1%nat
  /\ df_size table_one_output = 8%nat
  /\ to_dataframe fp_deep (Some table_one_output) (Some 1)
     = (Some table_one_output, Raise IndexError).
Proof. repeat split. Qed.

(** ** [to_dataframe]: the update of an existing row *)

Lemma filter_agree_on {A : Type} (P Q : A -> Prop)
      `{!forall x, Decision (P x)} `{!forall x, Decision (Q x)} (l : list A) :
  (forall x, x ∈ l -> (P x <-> Q x)) -> filter P l = filter Q l.
Proof.
  induction l as [|x l IH]; intros Hpq; [reflexivity|].
  rewrite !filter_cons.
  rewrite IH by (intros y Hy; apply Hpq, list_elem_of_further, Hy).
  destruct (decide (P x)) as [Hp|Hp], (decide (Q x)) as [Hq|Hq];
    try reflexivity; exfalso;
    pose proof (Hpq x (list_elem_of_here x l)) as Hx; tauto.
Qed.

(** Writing cells column after column adds the columns that are new, in
    the order of the writes, after the existing ones. *)
Lemma add_columns_in_order (cs : list string) :
  NoDup cs ->
  forall cols : list string,
    foldl (fun acc c => if bool_decide (c ∈ acc) then acc else (acc ++ [c])%list)
          cols cs
    = (cols ++ filter (fun c => c ∉ cols) cs)%list.
Proof.
  induction 1 as [|c cs Hc _ IH]; intros cols.
  - cbn [foldl]. rewrite filter_nil, app_nil_r. reflexivity.
  - cbn [foldl]. destruct (bool_decide (c ∈ cols)) eqn:Hin.
    + apply bool_decide_eq_true in Hin.
      rewrite IH, filter_cons_False by auto. reflexivity.
    + apply bool_decide_eq_false in Hin.
      rewrite IH, filter_cons_True by exact Hin.
      rewrite <- app_assoc. cbn [app]. do 2 f_equal.
      apply filter_agree_on. intros x Hx. rewrite elem_of_app, list_elem_of_singleton.
      split; [tauto|]. intros Hnot [Hxc| ->]; [tauto | contradiction].
Qed.

Lemma OUTPUT_COLUMNS_NoDup : NoDup OUTPUT_COLUMNS.
Proof. apply (bool_decide_unpack _). vm_compute. exact I. Qed.

(** A run of cell writes on one row, all at once. *)
Lemma loc_set_fold (j : nat) (writes : list (string * cell)) :
  forall df : DataFrame,
    foldl (fun d cv => loc_set j (fst cv) (snd cv) d) df writes
    = {| columns :=
           foldl (fun acc c => if bool_decide (c ∈ acc) then acc
                               else (acc ++ [c])%list)
                 (columns df) (map fst writes);
         rows :=
           alter (fun r => foldl (fun m cv => <[fst cv := snd cv]> m) r writes)
                 j (rows df) |}.
Proof.
  induction writes as [|[c v] writes IH]; intros df.
  - cbn [foldl map]. rewrite list_alter_id by reflexivity. destruct df; reflexivity.
  - cbn [foldl map fst snd]. rewrite IH. unfold loc_set at 1 2. cbn [columns rows].
    rewrite list_alter_alter_eq. reflexivity.
Qed.

Lemma loc_set_all (self : GPortalResponse) (pv : string) (j : nat) (df : DataFrame) :
  loc_set j "cloud_coverage"
    (cloud_cell (cloudCoverPercentage (meta (properties self))))
    (loc_set j "preview_url" (CStr pv)
       (loc_set j "download_url" (CStr (downloadUrl (product (properties self))))
          (loc_set j "scene_number"
             (CNum (Qc_of_Z (sceneNumber (meta (properties self)))))
             (loc_set j "path_number"
                (CNum (Qc_of_Z (orbitNumber (properties self))))
                (loc_set j "resolution" (CStr (resolution (properties self)))
                   (loc_set j "file_status" (CStr (status (properties self)))
                      (loc_set j "identifier"
                         (CStr (identifier (properties self))) df)))))))
  = {| columns := (columns df
                   ++ filter (fun c => c ∉ columns df) OUTPUT_COLUMNS)%list;
       rows := alter (write_fields self pv) j (rows df) |}.
Proof.
  transitivity
    (foldl (fun d cv => loc_set j (fst cv) (snd cv) d) df
       [ ("identifier", CStr (identifier (properties self)));
         ("file_status", CStr (status (properties self)));
         ("resolution", CStr (resolution (properties self)));
         ("path_number", CNum (Qc_of_Z (orbitNumber (properties self))));
         ("scene_number", CNum (Qc_of_Z (sceneNumber (meta (properties self)))));
         ("download_url", CStr (downloadUrl (product (properties self))));
         ("preview_url", CStr pv);
         ("cloud_coverage",
          cloud_cell (cloudCoverPercentage (meta (properties self)))) ]);
    [reflexivity|].
  rewrite loc_set_fold. cbn [map fst].
  change [ "identifier"; "file_status"; "resolution"; "path_number";
           "scene_number"; "download_url"; "preview_url"; "cloud_coverage" ]
    with OUTPUT_COLUMNS.
  rewrite (add_columns_in_order OUTPUT_COLUMNS OUTPUT_COLUMNS_NoDup).
  reflexivity.
Qed.

(** The positive half of C4.  On a row position [j] that exists and differs
    from the number of cells, for a product with a preview, [to_dataframe]
    returns the frame object it was given, in which row [j] holds the eight
    projected fields under the documented mapping and every other cell of
    the table is as before; missing output columns are added in their
    standard order after the existing columns. *)
Theorem to_dataframe_update_in_place
        (self : GPortalResponse) (df : DataFrame) (j : nat)
        (r : gmap string cell) (p : GPortalPreview) (ps : list GPortalPreview) :
  rows df !! j = Some r ->
  j <> df_size df ->
  previews (properties self) = p :: ps ->
  exists df' r',
    to_dataframe self (Some df) (Some (Z.of_nat j)) = (Some df', Ok df')
    /\ rows df' !! j = Some r'
    /\ r' !! "identifier" = Some (CStr (identifier (properties self)))
    /\ r' !! "file_status" = Some (CStr (status (properties self)))
    /\ r' !! "resolution" = Some (CStr (resolution (properties self)))
    /\ r' !! "path_number" = Some (CNum (Qc_of_Z (orbitNumber (properties self))))
    /\ r' !! "scene_number"
       = Some (CNum (Qc_of_Z (sceneNumber (meta (properties self)))))
    /\ r' !! "download_url" = Some (CStr (downloadUrl (product (properties self))))
    /\ r' !! "preview_url" = Some (CStr (url p))
    /\ r' !! "cloud_coverage"
       = Some (cloud_cell (cloudCoverPercentage (meta (properties self))))
    /\ (forall c, c ∉ OUTPUT_COLUMNS -> r' !! c = r !! c)
    /\ (forall i, i <> j -> rows df' !! i = rows df !! i)
    /\ df_len df' = df_len df
    /\ columns df'
       = (columns df ++ filter (fun c => c ∉ columns df) OUTPUT_COLUMNS)%list.
Proof.
  intros Hr Hsize Hprev.
  assert (j < df_len df)%nat as Hlt by (eapply lookup_lt_Some, Hr).
  unfold to_dataframe, to_dataframe_obj.
  unfold mbind, SE_bind, mret, SE_ret, se_get, se_lift, se_modify.
  replace (Z.of_nat j =? Z.of_nat (df_size df)) with false
    by (symmetry; apply Z.eqb_neq; lia).
  rewrite index_getitem_nat.
  replace (j <? df_len df)%nat with true by (symmetry; apply Nat.ltb_lt, Hlt).
  unfold preview_url0, py_getitem. rewrite Hprev. cbn [lookup list_lookup mbind result_bind].
  rewrite loc_set_all.
  eexists. exists (write_fields self (url p) r). split; [reflexivity|].
  split.
  { cbn [rows]. rewrite list_lookup_alter_eq, Hr. reflexivity. }
  unfold write_fields.
  repeat (split; [by simplify_map_eq|]).
  split.
  { intros c Hc. unfold OUTPUT_COLUMNS in Hc.
    repeat (apply not_elem_of_cons in Hc as [? Hc]).
    by simplify_map_eq. }
  split.
  { intros i Hi. cbn [rows]. apply list_lookup_alter_ne. congruence. }
  split; [|reflexivity].
  unfold df_len. cbn [rows]. apply length_alter.
Qed.

Lemma to_dataframe_update_in_place_witness :
  rows table_one_output !! 0%nat
  = Some (<["identifier" := CStr "OLD"]> (∅ : gmap string cell))
  /\ 0%nat <> df_size table_one_output
  /\ previews (properties fp_deep)
     = [ {| url := "https://example.org/preview/B" |} ]
  /\ exists df' r',
       to_dataframe fp_deep (Some table_one_output) (Some 0) = (Some df', Ok df')
       /\ rows df' !! 0%nat = Some r'
       /\ r' !! "identifier" = Some (CStr "B")
       /\ r' !! "preview_url" = Some (CStr "https://example.org/preview/B")
       /\ df_len df' = 1%nat
       /\ columns df' = OUTPUT_COLUMNS.
Proof.
  assert (0%nat <> df_size table_one_output) as Hsize by (vm_compute; lia).
  split; [reflexivity|]. split; [exact Hsize|]. split; [reflexivity|].
  destruct (to_dataframe_update_in_place fp_deep table_one_output 0
              (<["identifier" := CStr "OLD"]> (∅ : gmap string cell))
              {| url := "https://example.org/preview/B" |} []
              eq_refl Hsize eq_refl)
    as (df' & r' & Hcall & Hrow & Hid & _ & _ & _ & _ & _ & Hpv & _ & _ & _ & Hlen & Hcols).
  exists df', r'.
  split; [exact Hcall|]. split; [exact Hrow|]. split; [exact Hid|].
  split; [exact Hpv|]. split; [exact Hlen|]. exact Hcols.
Defined.

(** ** Checkpoints *)

Lemma succ_mod_100 (k : nat) :
  (S k mod 100 <> 0 -> S k mod 100 = S (k mod 100))%nat.
Proof.
  intros Hnz.
  pose proof (Nat.div_mod_eq k 100) as Hk.
  pose proof (Nat.mod_upper_bound k 100 ltac:(lia)) as Hlt.
  destruct (decide (k mod 100 = 99)%nat) as [H99|H99].
  - exfalso. apply Hnz. symmetry.
    apply (Nat.mod_unique (S k) 100 (S (k / 100)) 0); lia.
  - symmetry. apply (Nat.mod_unique (S k) 100 (k / 100) (S (k mod 100))); lia.
Qed.

Section CheckpointProperties.

Variable GPortalResolution : Type.
Variable H : GPortalResolution.
Variable resolution_from_int : cell -> result GPortalResolution.
Variable api_search :
  nat -> Query GPortalResolution -> result (option GPortalResponse).

Lemma unflushed_snoc (log : list (event GPortalResolution))
      (e : event GPortalResolution) :
  fold_left unflushed_step (log ++ [e]) (O, O)
  = unflushed_step (fold_left unflushed_step log (O, O)) e.
Proof. apply fold_left_app. Qed.

(** With skipping off, a row entered with [pred i mod 100] searches pending
    leaves at most 100 pending at any moment and, when it ends normally,
    [i mod 100] pending. *)
Lemma search_csv_row_unflushed (args : Namespace) (i : nat)
      (st : state GPortalResolution) :
  no_repeat args = false ->
  fst (fold_left unflushed_step (st_log st) (O, O)) = (pred i mod 100)%nat ->
  (snd (fold_left unflushed_step (st_log st) (O, O)) <= 100)%nat ->
  (snd (fold_left unflushed_step
          (st_log (fst (search_csv_row H resolution_from_int api_search args i st)))
          (O, O)) <= 100)%nat
  /\ (snd (search_csv_row H resolution_from_int api_search args i st) = Ok tt ->
      fst (fold_left unflushed_step
             (st_log (fst (search_csv_row H resolution_from_int api_search
                             args i st)))
             (O, O)) = (i mod 100)%nat).
Proof.
  intros Hrep Hcur Hbest. rewrite search_csv_row_unfold.
  destruct (row_resolution _ _ _ _) as [res|e]; [|split; [exact Hbest|discriminate]].
  unfold row_is_skipped. rewrite Hrep, andb_false_r. cbv zeta.
  pose proof (Nat.mod_upper_bound (pred i) 100 ltac:(lia)) as Hlt.
  set (q := row_query (st_df st) i res).
  assert (fold_left unflushed_step (st_log st ++ [EvSearch i q]) (O, O)
          = (S (pred i mod 100),
             Nat.max (snd (fold_left unflushed_step (st_log st) (O, O)))
                     (S (pred i mod 100)))) as Hsearch.
  { rewrite unflushed_snoc. cbn [unflushed_step]. rewrite Hcur. reflexivity. }
  assert (forall d,
             let st2 := {| st_df := d;
                           st_log := ((st_log st ++ [EvSearch i q])
                                      ++ [EvProgress])%list |} in
             let r := if (i mod 100 =? 0)%nat then to_csv st2 else (st2, Ok tt) in
             (snd (fold_left unflushed_step (st_log (fst r)) (O, O)) <= 100)%nat
             /\ fst (fold_left unflushed_step (st_log (fst r)) (O, O))
                = (i mod 100)%nat) as Hafter.
  { intros d st2 r.
    assert (fold_left unflushed_step (st_log st2) (O, O)
            = (S (pred i mod 100),
               Nat.max (snd (fold_left unflushed_step (st_log st) (O, O)))
                       (S (pred i mod 100)))) as Hst2.
    { subst st2. cbn [st_log]. rewrite unflushed_snoc, Hsearch. reflexivity. }
    subst r. destruct (i mod 100 =? 0)%nat eqn:Hmod.
    - apply Nat.eqb_eq in Hmod. cbn [to_csv fst st_log].
      rewrite unflushed_snoc, Hst2. cbn [unflushed_step fst snd]. lia.
    - apply Nat.eqb_neq in Hmod. cbn [fst]. rewrite Hst2. cbn [fst snd].
      split; [lia|]. destruct i as [|k]; [done|].
      cbn [pred]. symmetry. apply succ_mod_100, Hmod. }
  destruct (api_search i q) as [[r|]|e].
  - destruct (to_dataframe_obj r _ _) as [d' [d''|e]].
    + destruct (Hafter d') as [Hb Hc]. split; [exact Hb | intros _; exact Hc].
    + cbn [fst snd st_log]. rewrite Hsearch. cbn [snd]. split; [lia|discriminate].
  - destruct (Hafter (st_df st)) as [Hb Hc]. split; [exact Hb | intros _; exact Hc].
  - cbn [fst snd st_log]. rewrite Hsearch. cbn [snd]. split; [lia|discriminate].
Qed.

Lemma search_csv_loop_unflushed (args : Namespace) :
  no_repeat args = false ->
  forall (n a : nat) (st : state GPortalResolution),
    fst (fold_left unflushed_step (st_log st) (O, O)) = (pred a mod 100)%nat ->
    (snd (fold_left unflushed_step (st_log st) (O, O)) <= 100)%nat ->
    (snd (fold_left unflushed_step
            (st_log (fst (search_csv_loop H resolution_from_int api_search
                            args (seq a n) st)))
            (O, O)) <= 100)%nat.
Proof.
  intros Hrep. induction n as [|n IH]; intros a st Hcur Hbest.
  - exact Hbest.
  - cbn [seq search_csv_loop]. unfold mbind, SE_bind.
    destruct (search_csv_row_unflushed args a st Hrep Hcur Hbest) as [Hb Hc].
    destruct (search_csv_row _ _ _ args a st) as [st1 [[]|e]];
      cbn [fst snd] in Hb, Hc.
    + apply IH; [exact (Hc eq_refl) | exact Hb].
    + exact Hb.
Qed.

(** The positive half of C5.  When skipping is disabled, at no moment of a
    run, however it ends, are more than 100 searched rows waiting for the
    next flush. *)
Theorem checkpoint_bound_without_skipping (args : Namespace) (df : DataFrame) :
  no_repeat args = false ->
  (max_unflushed
     (st_log (fst (search_csv H resolution_from_int api_search args df)))
   <= 100)%nat.
Proof.
  intros Hrep. unfold max_unflushed, search_csv.
  destruct (api args); [|cbn; lia].
  unfold mbind, SE_bind.
  pose proof (search_csv_loop_unflushed args Hrep (df_len df) 0
                {| st_df := df; st_log := [] |} eq_refl ltac:(cbn; lia)) as Hb.
  destruct (search_csv_loop _ _ _ args _ _) as [st1 [[]|e]]; cbn [fst] in Hb.
  - cbn [to_csv]. destruct (download args); cbn [emit mret SE_ret fst st_log].
    + rewrite !unflushed_snoc. cbn [unflushed_step snd]. exact Hb.
    + rewrite unflushed_snoc. cbn [unflushed_step snd]. exact Hb.
  - exact Hb.
Qed.

(** A run that returns has flushed the final table as its last act (before
    the optional download step). *)
Theorem final_flush_on_return (args : Namespace) (df : DataFrame) :
  snd (search_csv H resolution_from_int api_search args df) = Returned ->
  exists log,
    st_log (fst (search_csv H resolution_from_int api_search args df))
    = (log
       ++ EvToCsv (st_df (fst (search_csv H resolution_from_int api_search
                                 args df)))
       :: (if download args then [EvDownloadCsv] else []))%list.
Proof.
  unfold search_csv. destruct (api args); [|discriminate].
  unfold mbind, SE_bind.
  destruct (search_csv_loop _ _ _ args _ _) as [st1 [[]|e]]; [|discriminate].
  intros _. exists (st_log st1). cbn [to_csv].
  destruct (download args); cbn [emit mret SE_ret fst st_df st_log].
  - rewrite <- app_assoc. reflexivity.
  - reflexivity.
Qed.

End CheckpointProperties.

Lemma checkpoint_bound_without_skipping_witness :
  no_repeat args_plain = false
  /\ (max_unflushed
        (st_log (fst (search_csv Res250 example_from_int search_deep
                        args_plain table_103)))
      <= 100)%nat.
Proof.
  split; [reflexivity|].
  exact (checkpoint_bound_without_skipping example_resolution Res250
           example_from_int search_deep args_plain table_103 eq_refl).
Defined.

Lemma final_flush_on_return_witness :
  snd (search_csv Res250 example_from_int search_deep args_plain table_two)
  = Returned
  /\ exists log,
       st_log (fst (search_csv Res250 example_from_int search_deep
                      args_plain table_two))
       = (log
          ++ EvToCsv (st_df (fst (search_csv Res250 example_from_int search_deep
                                    args_plain table_two)))
          :: (if download args_plain then [EvDownloadCsv] else []))%list.
Proof.
  assert (snd (search_csv Res250 example_from_int search_deep args_plain table_two)
          = Returned) as Hret by (vm_compute; reflexivity).
  split; [exact Hret|].
  exact (final_flush_on_return example_resolution Res250 example_from_int
           search_deep args_plain table_two Hret).
Defined.

(** ** [filter_results]: what it returns and when it raises *)

Section ResolverTotality.

Variable inside_polygon : list Qc -> list Qc -> Qc -> Qc -> Z.
Variable min_distance : Qc * Qc -> list (Qc * Qc) -> Qc.

Lemma polygons_dichotomy (results : list GPortalResponse) :
  Forall (fun f => coordinates (geometry f) <> []) results
  \/ Exists (fun f => coordinates (geometry f) = []) results.
Proof.
  induction results as [|f rest [IH|IH]].
  - left. constructor.
  - destruct (coordinates (geometry f)) as [|v poly] eqn:Hpoly.
    + right. left. exact Hpoly.
    + left. constructor; [congruence | exact IH].
  - right. right. exact IH.
Qed.

(** The selection step never fails, and what it selects is one of the
    products it was given. *)
Lemma select_filtered_total (lat lon : Qc) (filtered : list GPortalResponse) :
  exists r,
    select_filtered min_distance lat lon filtered = Ok r
    /\ match r with
       | Some f => f ∈ filtered
       | None => filtered = []
       end.
Proof.
  destruct filtered as [|f1 [|f2 l]].
  - exists None. split; reflexivity.
  - exists (Some f1). split; [reflexivity | apply list_elem_of_here].
  - destruct (select_filtered_many min_distance lat lon f1 f2 l)
      as (j & f & Hj & Hsel & _).
    exists (Some f). split; [exact Hsel|].
    eapply list_elem_of_lookup_2, Hj.
Qed.

Lemma filter_bool_elem {A : Type} (b : A -> bool) (l : list A) (x : A) :
  x ∈ List.filter b l -> x ∈ l /\ b x = true.
Proof.
  rewrite !list_elem_of_In. intros Hin. apply filter_In in Hin. exact Hin.
Qed.

(** Whatever the filter, a product that [filter_results] returns is one of
    the candidates; under a complete (path, scene) pair it has that path
    and scene, and in the geographic branch it passed the containment
    test.  Nothing is ever returned that the active filter rejects. *)
Theorem filter_results_returns_candidate
        (results : list GPortalResponse) (lat lon : option Qc)
        (path_number scene_number : option Z) (f : GPortalResponse) :
  filter_results inside_polygon min_distance results
                 lat lon path_number scene_number = Ok (Some f) ->
  f ∈ results
  /\ (forall p s, path_number = Some p -> scene_number = Some s ->
                  orbitNumber (properties f) = p
                  /\ sceneNumber (meta (properties f)) = s)
  /\ (forall la lo, lat = Some la -> lon = Some lo ->
                    is_none path_number || is_none scene_number = true ->
                    contains_point inside_polygon la lo f = true).
Proof.
  intros Hres. destruct results as [|first rest]; [discriminate|].
  unfold filter_results in Hres.
  destruct ((is_none path_number || is_none scene_number)
            && (is_none lat || is_none lon)) eqn:Hfirst.
  - injection Hres as <-. split; [apply list_elem_of_here|]. split.
    + intros p s -> ->. destruct lat, lon; discriminate.
    + intros la lo -> -> Hps. rewrite Hps in Hfirst. discriminate.
  - destruct path_number as [p|], scene_number as [s|].
    + assert (match_path_scene p s (first :: rest) = Some f) as Hm
          by (injection Hres as Hm; exact Hm).
      pose proof (match_path_scene_first p s (first :: rest)) as Hspec.
      rewrite Hm in Hspec. destruct Hspec as (j & Hj & Hp & Hs & _).
      split; [eapply list_elem_of_lookup_2, Hj|]. split.
      * intros p' s' [= <-] [= <-]. auto.
      * intros la lo _ _ Hps. discriminate.
    + destruct lat as [la|], lon as [lo|]; try discriminate.
      destruct (polygons_dichotomy (first :: rest)) as [Hpoly|Hex].
      2:{ rewrite (collect_inside_no_vertex _ _ _ _ Hex) in Hres. discriminate. }
      rewrite (collect_inside_ok _ _ _ _ Hpoly), rbind_ok, app_nil_l in Hres.
      destruct (select_filtered_total la lo
                  (List.filter (contains_point inside_polygon la lo) (first :: rest)))
        as (r & Hsel & Hr).
      rewrite Hsel in Hres. injection Hres as ->.
      apply filter_bool_elem in Hr as [Hin Hc].
      split; [exact Hin|]. split; [intros p' s' _ [=]|].
      intros la' lo' [= <-] [= <-] _. exact Hc.
    + destruct lat as [la|], lon as [lo|]; try discriminate.
      destruct (polygons_dichotomy (first :: rest)) as [Hpoly|Hex].
      2:{ rewrite (collect_inside_no_vertex _ _ _ _ Hex) in Hres. discriminate. }
      rewrite (collect_inside_ok _ _ _ _ Hpoly), rbind_ok, app_nil_l in Hres.
      destruct (select_filtered_total la lo
                  (List.filter (contains_point inside_polygon la lo) (first :: rest)))
        as (r & Hsel & Hr).
      rewrite Hsel in Hres. injection Hres as ->.
      apply filter_bool_elem in Hr as [Hin Hc].
      split; [exact Hin|]. split; [intros p' s' [=]|].
      intros la' lo' [= <-] [= <-] _. exact Hc.
    + destruct lat as [la|], lon as [lo|]; try discriminate.
      destruct (polygons_dichotomy (first :: rest)) as [Hpoly|Hex].
      2:{ rewrite (collect_inside_no_vertex _ _ _ _ Hex) in Hres. discriminate. }
      rewrite (collect_inside_ok _ _ _ _ Hpoly), rbind_ok, app_nil_l in Hres.
      destruct (select_filtered_total la lo
                  (List.filter (contains_point inside_polygon la lo) (first :: rest)))
        as (r & Hsel & Hr).
      rewrite Hsel in Hres. injection Hres as ->.
      apply filter_bool_elem in Hr as [Hin Hc].
      split; [exact Hin|]. split; [intros p' s' [=]|].
      intros la' lo' [= <-] [= <-] _. exact Hc.
Qed.

End ResolverTotality.

Lemma filter_results_returns_candidate_witness :
  filter_results inside_polygon_cn min_distance_box
    [fp_far; fp_near; fp_deep; fp_mid] (Some lat35) (Some lon139) None None
  = Ok (Some fp_deep)
  /\ fp_deep ∈ [fp_far; fp_near; fp_deep; fp_mid]
  /\ contains_point inside_polygon_cn lat35 lon139 fp_deep = true.
Proof.
  assert (filter_results inside_polygon_cn min_distance_box
            [fp_far; fp_near; fp_deep; fp_mid] (Some lat35) (Some lon139) None None
          = Ok (Some fp_deep)) as Hres by (vm_compute; reflexivity).
  destruct (filter_results_returns_candidate inside_polygon_cn min_distance_box
              _ _ _ _ _ _ Hres) as (Hin & _ & Hc).
  split; [exact Hres|]. split; [exact Hin|].
  exact (Hc lat35 lon139 eq_refl eq_refl eq_refl).
Defined.

(** ** [to_dataframe] and [save]: positions, appends and failures *)

Lemma filter_none {A : Type} (P : A -> Prop) `{!forall x, Decision (P x)}
      (l : list A) :
  (forall x, x ∈ l -> ~ P x) -> filter P l = [].
Proof.
  induction l as [|x l IH]; intros Hno; [reflexivity|].
  rewrite filter_cons_False by (apply Hno, list_elem_of_here).
  apply IH. intros y Hy. apply Hno, list_elem_of_further, Hy.
Qed.

Lemma missing_columns_none (cols : list string) :
  (forall c, c ∈ OUTPUT_COLUMNS -> c ∈ cols) ->
  filter (fun c => c ∉ cols) OUTPUT_COLUMNS = [].
Proof. intros Hall. apply filter_none. intros c Hc Hnot. exact (Hnot (Hall c Hc)). Qed.

Lemma missing_columns_added (cols : list string) (c : string) :
  c ∈ OUTPUT_COLUMNS ->
  c ∈ (cols ++ filter (fun c => c ∉ cols) OUTPUT_COLUMNS)%list.
Proof.
  intros Hc. apply elem_of_app.
  destruct (decide (c ∈ cols)) as [Hin|Hout]; [left; exact Hin|].
  right. apply list_elem_of_filter. auto.
Qed.

Lemma write_fields_twice (self : GPortalResponse) (pv : string)
      (r : gmap string cell) :
  write_fields self pv (write_fields self pv r) = write_fields self pv r.
Proof.
  unfold write_fields at 1.
  repeat (rewrite insert_id; [|unfold write_fields; by simplify_map_eq]).
  reflexivity.
Qed.

(** The update branch in closed form. *)
Lemma to_dataframe_obj_update_eq (self : GPortalResponse) (df : DataFrame)
      (j : nat) (p : GPortalPreview) (ps : list GPortalPreview) :
  (j < df_len df)%nat ->
  j <> df_size df ->
  previews (properties self) = p :: ps ->
  to_dataframe_obj self (Some (Z.of_nat j)) df
  = ({| columns := (columns df
                    ++ filter (fun c => c ∉ columns df) OUTPUT_COLUMNS)%list;
        rows := alter (write_fields self (url p)) j (rows df) |},
     Ok {| columns := (columns df
                       ++ filter (fun c => c ∉ columns df) OUTPUT_COLUMNS)%list;
           rows := alter (write_fields self (url p)) j (rows df) |}).
Proof.
  intros Hlt Hsize Hprev.
  unfold to_dataframe_obj.
  unfold mbind, SE_bind, mret, SE_ret, se_get, se_lift, se_modify.
  replace (Z.of_nat j =? Z.of_nat (df_size df)) with false
    by (symmetry; apply Z.eqb_neq; lia).
  rewrite index_getitem_nat.
  replace (j <? df_len df)%nat with true by (symmetry; apply Nat.ltb_lt, Hlt).
  unfold preview_url0, py_getitem. rewrite Hprev.
  cbn [lookup list_lookup mbind result_bind].
  rewrite loc_set_all. reflexivity.
Qed.

Lemma add_missing_columns_present (cs : list string) (df : DataFrame) :
  (forall c, c ∈ cs -> c ∈ columns df) ->
  add_missing_columns cs df = (df, Ok tt).
Proof.
  induction cs as [|c cs IH]; intros Hall; [reflexivity|].
  cbn [add_missing_columns]. unfold mbind, SE_bind, se_get.
  rewrite bool_decide_eq_true_2 by (apply Hall, list_elem_of_here).
  cbn [mret SE_ret]. apply IH. intros c' Hc'. apply Hall, list_elem_of_further, Hc'.
Qed.

Lemma add_missing_columns_with_rows (cs : list string) (df : DataFrame) :
  rows df <> [] ->
  (exists c, c ∈ cs /\ c ∉ columns df) ->
  add_missing_columns cs df = (df, Raise ValueError).
Proof.
  intros Hrows. induction cs as [|c cs IH]; intros (c0 & Hin & Hout).
  - inversion Hin.
  - cbn [add_missing_columns]. unfold mbind, SE_bind, se_get.
    destruct (bool_decide (c ∈ columns df)) eqn:Hc.
    + apply bool_decide_eq_true in Hc. cbn [mret SE_ret]. apply IH.
      apply elem_of_cons in Hin as [->|Hin]; [contradiction|]. eauto.
    + unfold set_empty_column. destruct (rows df); [congruence | reflexivity].
Qed.

Lemma add_missing_columns_no_rows (cs : list string) :
  NoDup cs ->
  forall cols : list string,
    add_missing_columns cs {| columns := cols; rows := [] |}
    = ({| columns := (cols ++ filter (fun c => c ∉ cols) cs)%list; rows := [] |},
       Ok tt).
Proof.
  induction 1 as [|c cs Hc _ IH]; intros cols.
  - cbn [add_missing_columns]. rewrite filter_nil, app_nil_r. reflexivity.
  - cbn [add_missing_columns]. unfold mbind, SE_bind, se_get. cbn [columns].
    destruct (bool_decide (c ∈ cols)) eqn:Hin.
    + apply bool_decide_eq_true in Hin. cbn [mret SE_ret].
      rewrite IH, filter_cons_False by auto. reflexivity.
    + apply bool_decide_eq_false in Hin. cbn [set_empty_column rows columns].
      rewrite IH, filter_cons_True by exact Hin.
      rewrite <- app_assoc. cbn [app]. do 4 f_equal.
      all: apply filter_agree_on; intros x Hx;
        rewrite elem_of_app, list_elem_of_singleton;
        (split; [tauto|]); intros Hnot [Hxc| ->]; [tauto | contradiction].
Qed.

Lemma output_row_fields (self : GPortalResponse) (p : GPortalPreview)
      (ps : list GPortalPreview) :
  previews (properties self) = p :: ps ->
  output_row self = Ok (write_fields self (url p) ∅).
Proof.
  intros Hprev. unfold output_row, preview_url0, py_getitem. rewrite Hprev.
  cbn [lookup list_lookup mbind result_bind]. reflexivity.
Qed.

(** Without a position the call first completes the columns and then goes
    on as for position 0. *)
Lemma to_dataframe_obj_default (self : GPortalResponse) (df : DataFrame) :
  to_dataframe_obj self None df
  = match add_missing_columns OUTPUT_COLUMNS df with
    | (d, Ok _) => to_dataframe_obj self (Some 0) d
    | (d, Raise e) => (d, Raise e)
    end.
Proof.
  unfold to_dataframe_obj. unfold mbind, SE_bind, mret, SE_ret.
  destruct (add_missing_columns OUTPUT_COLUMNS df) as [d [[]|e]]; reflexivity.
Qed.

(** The append branch in closed form. *)
Lemma to_dataframe_obj_append_eq (self : GPortalResponse) (df : DataFrame)
      (p : GPortalPreview) (ps : list GPortalPreview) :
  previews (properties self) = p :: ps ->
  to_dataframe_obj self (Some (Z.of_nat (df_size df))) df
  = (df, Ok (concat_row df (write_fields self (url p) ∅))).
Proof.
  intros Hprev. unfold to_dataframe_obj.
  unfold mbind, SE_bind, mret, SE_ret, se_get, se_lift.
  rewrite Z.eqb_refl, (output_row_fields self p ps Hprev). reflexivity.
Qed.

(** When the position given equals [df.size], the product is appended: the
    frame that is returned holds the old rows followed by one row with the
    eight projected fields and nothing else, and its columns are the old
    ones followed by the output columns that were missing.  The frame
    object that was passed in is not touched: the new row exists only in
    the returned frame. *)
Theorem to_dataframe_append
        (self : GPortalResponse) (df : DataFrame)
        (p : GPortalPreview) (ps : list GPortalPreview) :
  previews (properties self) = p :: ps ->
  exists df' r',
    to_dataframe self (Some df) (Some (Z.of_nat (df_size df))) = (Some df, Ok df')
    /\ rows df' = (rows df ++ [r'])%list
    /\ r' !! "identifier" = Some (CStr (identifier (properties self)))
    /\ r' !! "file_status" = Some (CStr (status (properties self)))
    /\ r' !! "resolution" = Some (CStr (resolution (properties self)))
    /\ r' !! "path_number" = Some (CNum (Qc_of_Z (orbitNumber (properties self))))
    /\ r' !! "scene_number"
       = Some (CNum (Qc_of_Z (sceneNumber (meta (properties self)))))
    /\ r' !! "download_url" = Some (CStr (downloadUrl (product (properties self))))
    /\ r' !! "preview_url" = Some (CStr (url p))
    /\ r' !! "cloud_coverage"
       = Some (cloud_cell (cloudCoverPercentage (meta (properties self))))
    /\ (forall c, c ∉ OUTPUT_COLUMNS -> r' !! c = None)
    /\ columns df'
       = (columns df ++ filter (fun c => c ∉ columns df) OUTPUT_COLUMNS)%list.
Proof.
  intros Hprev.
  exists (concat_row df (write_fields self (url p) ∅)),
         (write_fields self (url p) ∅).
  split.
  { unfold to_dataframe.
    rewrite (to_dataframe_obj_append_eq self df p ps Hprev). reflexivity. }
  split; [reflexivity|].
  unfold write_fields.
  repeat (split; [by simplify_map_eq|]).
  split; [|reflexivity].
  intros c Hc. unfold OUTPUT_COLUMNS in Hc.
  repeat (apply not_elem_of_cons in Hc as [? Hc]).
  by simplify_map_eq.
Qed.

Lemma to_dataframe_append_witness :
  previews (properties fp_deep) = [ {| url := "https://example.org/preview/B" |} ]
  /\ df_size table_one_output = 8%nat
  /\ exists df' r',
       to_dataframe fp_deep (Some table_one_output) (Some 8)
       = (Some table_one_output, Ok df')
       /\ rows df' = (rows table_one_output ++ [r'])%list
       /\ r' !! "identifier" = Some (CStr "B")
       /\ columns df' = OUTPUT_COLUMNS.
Proof.
  split; [reflexivity|]. split; [reflexivity|].
  destruct (to_dataframe_append fp_deep table_one_output
              {| url := "https://example.org/preview/B" |} [] eq_refl)
    as (df' & r' & Hcall & Hrows & Hid & _ & _ & _ & _ & _ & _ & _ & _ & Hcols).
  exists df', r'.
  split; [exact Hcall|]. split; [exact Hrows|]. split; [exact Hid|]. exact Hcols.
Defined.

(** [save] when the file cannot be read, or holds a header and no rows:
    the table written has exactly one row, the product's; its columns are
    the columns found (the eight output columns when there was no file)
    followed by the output columns that were missing. *)
Theorem save_starts_table
        (self : GPortalResponse) (on_disk : option DataFrame)
        (p : GPortalPreview) (ps : list GPortalPreview) :
  rows (default empty_frame on_disk) = [] ->
  previews (properties self) = p :: ps ->
  exists df' r',
    save self on_disk = Ok df'
    /\ rows df' = [r']
    /\ r' !! "identifier" = Some (CStr (identifier (properties self)))
    /\ r' !! "download_url" = Some (CStr (downloadUrl (product (properties self))))
    /\ r' !! "preview_url" = Some (CStr (url p))
    /\ columns df'
       = (columns (default empty_frame on_disk)
          ++ filter (fun c => c ∉ columns (default empty_frame on_disk))
                    OUTPUT_COLUMNS)%list.
Proof.
  intros Hrows Hprev.
  assert (forall d : DataFrame,
             rows d = [] ->
             to_dataframe_obj self None d
             = ({| columns := (columns d
                               ++ filter (fun c => c ∉ columns d) OUTPUT_COLUMNS)%list;
                   rows := [] |},
                Ok (concat_row
                      {| columns := (columns d
                                     ++ filter (fun c => c ∉ columns d)
                                               OUTPUT_COLUMNS)%list;
                         rows := [] |}
                      (write_fields self (url p) ∅)))) as Hobj.
  { intros d Hd. rewrite to_dataframe_obj_default.
    replace d with {| columns := columns d; rows := [] |} at 1
      by (destruct d; cbn in *; congruence).
    rewrite (add_missing_columns_no_rows OUTPUT_COLUMNS OUTPUT_COLUMNS_NoDup).
    apply (to_dataframe_obj_append_eq self
             {| columns := (columns d
                            ++ filter (fun c => c ∉ columns d) OUTPUT_COLUMNS)%list;
                rows := [] |} p ps Hprev). }
  assert (save self on_disk
          = Ok (concat_row
                  {| columns := (columns (default empty_frame on_disk)
                                 ++ filter (fun c => c ∉ columns (default empty_frame on_disk))
                                           OUTPUT_COLUMNS)%list;
                     rows := [] |}
                  (write_fields self (url p) ∅))) as Hsave.
  { unfold save, to_dataframe. destruct on_disk as [d|].
    - change (default empty_frame (Some d)) with d in *.
      rewrite (Hobj d Hrows). reflexivity.
    - change (default empty_frame None) with empty_frame in *.
      rewrite (Hobj empty_frame Hrows). reflexivity. }
  eexists. exists (write_fields self (url p) ∅).
  split; [exact Hsave|]. split; [reflexivity|].
  unfold write_fields.
  repeat (split; [by simplify_map_eq|]).
  cbn [concat_row columns].
  rewrite (missing_columns_none
             (columns (default empty_frame on_disk)
              ++ filter (fun c => c ∉ columns (default empty_frame on_disk))
                        OUTPUT_COLUMNS)), app_nil_r; [reflexivity|].
  intros c Hc. apply missing_columns_added, Hc.
Qed.

Lemma save_starts_table_witness :
  rows (default empty_frame (Some table_header_only)) = []
  /\ previews (properties fp_deep) = [ {| url := "https://example.org/preview/B" |} ]
  /\ exists df' r',
       save fp_deep (Some table_header_only) = Ok df'
       /\ rows df' = [r']
       /\ r' !! "identifier" = Some (CStr "B")
       /\ columns df' = ("date" :: OUTPUT_COLUMNS).
Proof.
  split; [reflexivity|]. split; [reflexivity|].
  destruct (save_starts_table fp_deep (Some table_header_only)
              {| url := "https://example.org/preview/B" |} [] eq_refl eq_refl)
    as (df' & r' & Hsave & Hrows & Hid & _ & _ & Hcols).
  exists df', r'.
  split; [exact Hsave|]. split; [exact Hrows|]. split; [exact Hid|]. exact Hcols.
Defined.

Lemma df_size_pos (df : DataFrame) (r : gmap string cell) (c : string) :
  rows df !! 0%nat = Some r -> c ∈ columns df -> (0 < df_size df)%nat.
Proof.
  intros Hr Hc. unfold df_size.
  destruct (rows df) as [|r0 rs]; [discriminate|].
  destruct (columns df) as [|c0 cs]; [inversion Hc|]. cbn. lia.
Qed.

(** [save] on a table that already has a row and all eight output columns
    does not add a row: it overwrites the eight fields of the first row
    with the product's and leaves everything else, the number of rows and
    the columns included, as it was. *)
Theorem save_overwrites_first_row
        (self : GPortalResponse) (df : DataFrame) (r : gmap string cell)
        (p : GPortalPreview) (ps : list GPortalPreview) :
  rows df !! 0%nat = Some r ->
  (forall c, c ∈ OUTPUT_COLUMNS -> c ∈ columns df) ->
  previews (properties self) = p :: ps ->
  exists df',
    save self (Some df) = Ok df'
    /\ df_len df' = df_len df
    /\ columns df' = columns df
    /\ rows df' !! 0%nat = Some (write_fields self (url p) r)
    /\ (forall i, i <> 0%nat -> rows df' !! i = rows df !! i).
Proof.
  intros Hr Hall Hprev.
  assert (0 < df_len df)%nat as Hlen by (eapply lookup_lt_Some, Hr).
  assert (0%nat <> df_size df) as Hsize.
  { pose proof (df_size_pos df r "identifier" Hr
                  (Hall _ ltac:(apply list_elem_of_here))). lia. }
  eexists. split.
  { unfold save, to_dataframe.
    assert (to_dataframe_obj self None df
            = to_dataframe_obj self (Some (Z.of_nat 0)) df) as ->.
    { rewrite to_dataframe_obj_default.
      rewrite (add_missing_columns_present _ _ Hall). reflexivity. }
    rewrite (to_dataframe_obj_update_eq self df 0 p ps Hlen Hsize Hprev).
    reflexivity. }
  cbn [columns rows]. split; [apply length_alter|]. split.
  { rewrite (missing_columns_none _ Hall). apply app_nil_r. }
  split.
  { rewrite list_lookup_alter_eq, Hr. reflexivity. }
  intros i Hi. apply list_lookup_alter_ne. congruence.
Qed.

Lemma save_overwrites_first_row_witness :
  rows table_two_output !! 0%nat
  = Some (<["identifier" := CStr "OLD0"]> (∅ : gmap string cell))
  /\ (forall c, c ∈ OUTPUT_COLUMNS -> c ∈ columns table_two_output)
  /\ previews (properties fp_deep) = [ {| url := "https://example.org/preview/B" |} ]
  /\ exists df',
       save fp_deep (Some table_two_output) = Ok df'
       /\ df_len df' = 2%nat
       /\ rows df' !! 1%nat
          = Some (<["identifier" := CStr "OLD1"]> (∅ : gmap string cell)).
Proof.
  assert (forall c, c ∈ OUTPUT_COLUMNS -> c ∈ columns table_two_output) as Hall
      by (intros c Hc; exact Hc).
  split; [reflexivity|]. split; [exact Hall|]. split; [reflexivity|].
  destruct (save_overwrites_first_row fp_deep table_two_output
              (<["identifier" := CStr "OLD0"]> (∅ : gmap string cell))
              {| url := "https://example.org/preview/B" |} []
              eq_refl Hall eq_refl)
    as (df' & Hsave & Hlen & _ & _ & Hrest).
  exists df'. split; [exact Hsave|]. split; [exact Hlen|].
  exact (Hrest 1%nat ltac:(discriminate)).
Defined.

(** Called without a position on a table that has rows but lacks one of
    the output columns, [to_dataframe] fails with [ValueError] (an empty
    column cannot be added to a table with rows) and the table is left as
    it was; [save] on such a file writes nothing. *)
Theorem to_dataframe_missing_column_raises
        (self : GPortalResponse) (df : DataFrame) (c : string) :
  rows df <> [] ->
  c ∈ OUTPUT_COLUMNS ->
  c ∉ columns df ->
  to_dataframe self (Some df) None = (Some df, Raise ValueError)
  /\ save self (Some df) = Raise ValueError.
Proof.
  intros Hrows Hc Hout.
  assert (to_dataframe_obj self None df = (df, Raise ValueError)) as Hobj.
  { rewrite to_dataframe_obj_default.
    rewrite (add_missing_columns_with_rows OUTPUT_COLUMNS df Hrows); [reflexivity|].
    exists c. auto. }
  unfold save, to_dataframe. rewrite Hobj. split; reflexivity.
Qed.

Lemma to_dataframe_missing_column_raises_witness :
  rows table_two <> []
  /\ ("file_status" ∈ OUTPUT_COLUMNS)
  /\ ("file_status" ∉ columns table_two)
  /\ to_dataframe fp_deep (Some table_two) None = (Some table_two, Raise ValueError)
  /\ save fp_deep (Some table_two) = Raise ValueError.
Proof.
  assert (rows table_two <> []) as Hrows by discriminate.
  assert ("file_status" ∈ OUTPUT_COLUMNS) as Hc
      by (apply (bool_decide_eq_true_1 ("file_status" ∈ OUTPUT_COLUMNS));
          vm_compute; reflexivity).
  assert ("file_status" ∉ columns table_two) as Hout
      by (apply (bool_decide_eq_false_1 ("file_status" ∈ columns table_two));
          vm_compute; reflexivity).
  split; [exact Hrows|]. split; [exact Hc|]. split; [exact Hout|].
  exact (to_dataframe_missing_column_raises fp_deep table_two "file_status"
           Hrows Hc Hout).
Defined.

(** A position that is neither [df.size] nor a valid row position, counted
    from the front or from the back, raises [IndexError] and changes
    nothing.  In particular the position just past the last row does so
    on every table of at least one row and two columns. *)
Theorem to_dataframe_position_out_of_range
        (self : GPortalResponse) (df : DataFrame) (index : Z) :
  index <> Z.of_nat (df_size df) ->
  index < - Z.of_nat (df_len df) \/ Z.of_nat (df_len df) <= index ->
  to_dataframe self (Some df) (Some index) = (Some df, Raise IndexError).
Proof.
  intros Hsize Hout. unfold to_dataframe, to_dataframe_obj.
  unfold mbind, SE_bind, mret, SE_ret, se_get, se_lift.
  replace (index =? Z.of_nat (df_size df)) with false
    by (symmetry; apply Z.eqb_neq, Hsize).
  unfold index_getitem.
  replace ((0 <=? index) && (index <? Z.of_nat (df_len df))) with false.
  2:{ symmetry. apply andb_false_iff.
      destruct Hout; [left; apply Z.leb_gt | right; apply Z.ltb_ge]; lia. }
  replace ((- Z.of_nat (df_len df) <=? index) && (index <? 0)) with false.
  2:{ symmetry. apply andb_false_iff.
      destruct Hout; [left; apply Z.leb_gt | right; apply Z.ltb_ge]; lia. }
  reflexivity.
Qed.

Lemma to_dataframe_position_out_of_range_witness :
  2 <> Z.of_nat (df_size table_two_output)
  /\ (2 < - Z.of_nat (df_len table_two_output)
      \/ Z.of_nat (df_len table_two_output) <= 2)
  /\ to_dataframe fp_deep (Some table_two_output) (Some 2)
     = (Some table_two_output, Raise IndexError).
Proof.
  assert (2 <> Z.of_nat (df_size table_two_output)) as Hsize by (vm_compute; lia).
  assert (2 < - Z.of_nat (df_len table_two_output)
          \/ Z.of_nat (df_len table_two_output) <= 2) as Hout
      by (right; vm_compute; discriminate).
  split; [exact Hsize|]. split; [exact Hout|].
  exact (to_dataframe_position_out_of_range fp_deep table_two_output 2 Hsize Hout).
Defined.

(** A negative position counts rows from the end: position [-k] does
    exactly what position [len(df) - k] does. *)
Theorem to_dataframe_negative_position
        (self : GPortalResponse) (df : DataFrame) (index : Z) :
  - Z.of_nat (df_len df) <= index < 0 ->
  Z.of_nat (df_len df) + index <> Z.of_nat (df_size df) ->
  to_dataframe self (Some df) (Some index)
  = to_dataframe self (Some df) (Some (Z.of_nat (df_len df) + index)).
Proof.
  intros [Hlo Hhi] Hsize. unfold to_dataframe, to_dataframe_obj.
  unfold mbind, SE_bind, mret, SE_ret, se_get, se_lift.
  replace (index =? Z.of_nat (df_size df)) with false
    by (symmetry; apply Z.eqb_neq; lia).
  replace (Z.of_nat (df_len df) + index =? Z.of_nat (df_size df)) with false
    by (symmetry; apply Z.eqb_neq, Hsize).
  assert (index_getitem (df_len df) index
          = Ok (Z.to_nat (Z.of_nat (df_len df) + index))) as ->.
  { unfold index_getitem.
    replace (0 <=? index) with false by (symmetry; apply Z.leb_gt; lia).
    replace (- Z.of_nat (df_len df) <=? index) with true
      by (symmetry; apply Z.leb_le; lia).
    replace (index <? 0) with true by (symmetry; apply Z.ltb_lt; lia).
    reflexivity. }
  assert (index_getitem (df_len df) (Z.of_nat (df_len df) + index)
          = Ok (Z.to_nat (Z.of_nat (df_len df) + index))) as ->.
  { unfold index_getitem.
    replace (0 <=? Z.of_nat (df_len df) + index) with true
      by (symmetry; apply Z.leb_le; lia).
    replace (Z.of_nat (df_len df) + index <? Z.of_nat (df_len df)) with true
      by (symmetry; apply Z.ltb_lt; lia).
    reflexivity. }
  reflexivity.
Qed.

Lemma to_dataframe_negative_position_witness :
  - Z.of_nat (df_len table_two_output) <= -1 < 0
  /\ Z.of_nat (df_len table_two_output) + -1
     <> Z.of_nat (df_size table_two_output)
  /\ to_dataframe fp_deep (Some table_two_output) (Some (-1))
     = to_dataframe fp_deep (Some table_two_output) (Some 1).
Proof.
  assert (- Z.of_nat (df_len table_two_output) <= -1 < 0) as Hrange
      by (vm_compute; split; [discriminate | reflexivity]).
  assert (Z.of_nat (df_len table_two_output) + -1
          <> Z.of_nat (df_size table_two_output)) as Hsize
      by (vm_compute; discriminate).
  split; [exact Hrange|]. split; [exact Hsize|].
  exact (to_dataframe_negative_position fp_deep table_two_output (-1)
           Hrange Hsize).
Defined.

(** A product without previews cannot be written.  At the append position
    the call raises [IndexError] and changes nothing.  On an existing row
    the exception comes only after six of the eight cells have been
    written: the row is left with the product's identifier, status,
    resolution, path, scene and download address next to its old preview
    address and cloud cover. *)
Theorem to_dataframe_without_preview
        (self : GPortalResponse) (df : DataFrame) (j : nat)
        (r : gmap string cell) :
  previews (properties self) = [] ->
  rows df !! j = Some r ->
  j <> df_size df ->
  to_dataframe self (Some df) (Some (Z.of_nat (df_size df)))
  = (Some df, Raise IndexError)
  /\ exists df' r',
       to_dataframe self (Some df) (Some (Z.of_nat j)) = (Some df', Raise IndexError)
       /\ rows df' !! j = Some r'
       /\ r' !! "identifier" = Some (CStr (identifier (properties self)))
       /\ r' !! "file_status" = Some (CStr (status (properties self)))
       /\ r' !! "resolution" = Some (CStr (resolution (properties self)))
       /\ r' !! "path_number"
          = Some (CNum (Qc_of_Z (orbitNumber (properties self))))
       /\ r' !! "scene_number"
          = Some (CNum (Qc_of_Z (sceneNumber (meta (properties self)))))
       /\ r' !! "download_url"
          = Some (CStr (downloadUrl (product (properties self))))
       /\ r' !! "preview_url" = r !! "preview_url"
       /\ r' !! "cloud_coverage" = r !! "cloud_coverage"
       /\ (forall i, i <> j -> rows df' !! i = rows df !! i).
Proof.
  intros Hprev Hr Hsize.
  assert (j < df_len df)%nat as Hlt by (eapply lookup_lt_Some, Hr).
  split.
  { unfold to_dataframe, to_dataframe_obj.
    unfold mbind, SE_bind, mret, SE_ret, se_get, se_lift.
    rewrite Z.eqb_refl. unfold output_row, preview_url0, py_getitem.
    rewrite Hprev. reflexivity. }
  unfold to_dataframe, to_dataframe_obj.
  unfold mbind, SE_bind, mret, SE_ret, se_get, se_lift, se_modify.
  replace (Z.of_nat j =? Z.of_nat (df_size df)) with false
    by (symmetry; apply Z.eqb_neq; lia).
  rewrite index_getitem_nat.
  replace (j <? df_len df)%nat with true by (symmetry; apply Nat.ltb_lt, Hlt).
  unfold preview_url0, py_getitem. rewrite Hprev.
  cbn [lookup list_lookup mbind result_bind].
  eexists. eexists. split; [reflexivity|].
  split.
  { cbn [rows loc_set]. rewrite !list_lookup_alter_eq, Hr. reflexivity. }
  repeat (split; [by simplify_map_eq|]).
  intros i Hi. cbn [rows loc_set].
  rewrite !list_lookup_alter_ne by congruence. reflexivity.
Qed.

Lemma to_dataframe_without_preview_witness :
  previews (properties fp_no_preview) = []
  /\ rows table_one_output !! 0%nat
     = Some (<["identifier" := CStr "OLD"]> (∅ : gmap string cell))
  /\ 0%nat <> df_size table_one_output
  /\ to_dataframe fp_no_preview (Some table_one_output) (Some 8)
     = (Some table_one_output, Raise IndexError)
  /\ exists df' r',
       to_dataframe fp_no_preview (Some table_one_output) (Some 0)
       = (Some df', Raise IndexError)
       /\ rows df' !! 0%nat = Some r'
       /\ r' !! "identifier" = Some (CStr "G")
       /\ r' !! "preview_url" = None.
Proof.
  assert (0%nat <> df_size table_one_output) as Hsize by (vm_compute; lia).
  destruct (to_dataframe_without_preview fp_no_preview table_one_output 0
              (<["identifier" := CStr "OLD"]> (∅ : gmap string cell))
              eq_refl eq_refl Hsize)
    as (Happ & df' & r' & Hcall & Hrow & Hid & _ & _ & _ & _ & _ & Hpv & _ & _).
  split; [reflexivity|]. split; [reflexivity|]. split; [exact Hsize|].
  split; [exact Happ|].
  exists df', r'. split; [exact Hcall|]. split; [exact Hrow|].
  split; [exact Hid|]. rewrite Hpv. reflexivity.
Defined.

(** Writing the same product to the same existing row a second time
    changes nothing: the table after the second call is the table after
    the first. *)
Theorem to_dataframe_update_idempotent
        (self : GPortalResponse) (df : DataFrame) (j : nat)
        (r : gmap string cell) (p : GPortalPreview) (ps : list GPortalPreview) :
  rows df !! j = Some r ->
  j <> df_size df ->
  previews (properties self) = p :: ps ->
  exists df',
    to_dataframe self (Some df) (Some (Z.of_nat j)) = (Some df', Ok df')
    /\ to_dataframe self (Some df') (Some (Z.of_nat j)) = (Some df', Ok df').
Proof.
  intros Hr Hsize Hprev.
  assert (j < df_len df)%nat as Hlt by (eapply lookup_lt_Some, Hr).
  set (cols' := (columns df ++ filter (fun c => c ∉ columns df) OUTPUT_COLUMNS)%list).
  set (D := {| columns := cols';
               rows := alter (write_fields self (url p)) j (rows df) |}).
  assert (forall c, c ∈ OUTPUT_COLUMNS -> c ∈ cols') as Hall
      by (intros c Hc; apply missing_columns_added, Hc).
  exists D. unfold to_dataframe.
  rewrite (to_dataframe_obj_update_eq self df j p ps Hlt Hsize Hprev).
  fold cols'. fold D. split; [reflexivity|].
  assert (j < df_len D)%nat as Hlt'.
  { unfold df_len, D. cbn [rows]. rewrite length_alter. exact Hlt. }
  assert (j <> df_size D) as Hsize'.
  { assert (0 < length cols')%nat as Hpos.
    { pose proof (Hall "identifier" ltac:(apply list_elem_of_here)) as Hin.
      destruct cols'; [inversion Hin | cbn; lia]. }
    unfold df_size. fold (df_len D). cbn [columns D]. nia. }
  rewrite (to_dataframe_obj_update_eq self D j p ps Hlt' Hsize' Hprev).
  assert ({| columns := (columns D
                         ++ filter (fun c => c ∉ columns D) OUTPUT_COLUMNS)%list;
             rows := alter (write_fields self (url p)) j (rows D) |} = D) as ->;
    [|reflexivity].
  unfold D at 3. f_equal.
  - cbn [columns D]. rewrite (missing_columns_none cols' Hall). apply app_nil_r.
  - cbn [rows D]. rewrite list_alter_alter_eq.
    apply list_alter_ext; [|reflexivity].
    intros x _. apply write_fields_twice.
Qed.

Lemma to_dataframe_update_idempotent_witness :
  rows table_one_output !! 0%nat
  = Some (<["identifier" := CStr "OLD"]> (∅ : gmap string cell))
  /\ 0%nat <> df_size table_one_output
  /\ previews (properties fp_deep) = [ {| url := "https://example.org/preview/B" |} ]
  /\ exists df',
       to_dataframe fp_deep (Some table_one_output) (Some 0) = (Some df', Ok df')
       /\ to_dataframe fp_deep (Some df') (Some 0) = (Some df', Ok df').
Proof.
  assert (0%nat <> df_size table_one_output) as Hsize by (vm_compute; lia).
  split; [reflexivity|]. split; [exact Hsize|]. split; [reflexivity|].
  exact (to_dataframe_update_idempotent fp_deep table_one_output 0
           (<["identifier" := CStr "OLD"]> (∅ : gmap string cell))
           {| url := "https://example.org/preview/B" |} []
           eq_refl Hsize eq_refl).
Defined.

(** ** [search_csv]: what a run keeps *)

Lemma preserves_inputs_refl (df : DataFrame) : preserves_inputs df df.
Proof. split; [reflexivity|]. split; [reflexivity|]. reflexivity. Qed.

Lemma preserves_inputs_trans (df1 df2 df3 : DataFrame) :
  preserves_inputs df1 df2 -> preserves_inputs df2 df3 -> preserves_inputs df1 df3.
Proof.
  intros (Hl1 & Hc1 & Hk1) (Hl2 & Hc2 & Hk2). split; [congruence|]. split.
  - etrans; eassumption.
  - intros i c Hc. rewrite Hk2, Hk1 by exact Hc. reflexivity.
Qed.

Lemma preserves_inputs_loc_set (label : nat) (col : string) (v : cell)
      (df df' : DataFrame) :
  col ∈ OUTPUT_COLUMNS ->
  preserves_inputs df df' -> preserves_inputs df (loc_set label col v df').
Proof.
  intros Hcol Hpre. apply (preserves_inputs_trans _ df' _ Hpre).
  split; [apply loc_set_len|]. split.
  - cbn [loc_set columns]. destruct (bool_decide (col ∈ columns df'));
      [reflexivity | apply prefix_app_r; reflexivity].
  - intros i c Hc. unfold cell_lookup. cbn [loc_set rows].
    destruct (decide (label = i)) as [->|Hne].
    + rewrite list_lookup_alter_eq. destruct (rows df' !! i) as [r|]; [|reflexivity].
      cbn. apply lookup_insert_ne. intros ->. contradiction.
    + rewrite list_lookup_alter_ne by exact Hne. reflexivity.
Qed.

Lemma to_dataframe_obj_preserves (self : GPortalResponse) (j : nat) (df : DataFrame) :
  preserves_inputs df (fst (to_dataframe_obj self (Some (Z.of_nat j)) df)).
Proof.
  unfold to_dataframe_obj.
  unfold mbind, SE_bind, mret, SE_ret, se_get, se_lift, se_modify.
  destruct (Z.of_nat j =? Z.of_nat (df_size df)).
  - destruct (output_row self); apply preserves_inputs_refl.
  - rewrite index_getitem_nat.
    destruct (j <? df_len df)%nat; [|apply preserves_inputs_refl].
    destruct (preview_url0 self); cbn [fst];
      repeat (apply preserves_inputs_loc_set;
              [apply (bool_decide_eq_true_1 (_ ∈ OUTPUT_COLUMNS)); reflexivity|]);
      apply preserves_inputs_refl.
Qed.

Section RunInvariants.

Variable GPortalResolution : Type.
Variable H : GPortalResolution.
Variable resolution_from_int : cell -> result GPortalResolution.
Variable api_search :
  nat -> Query GPortalResolution -> result (option GPortalResponse).

Lemma search_csv_row_preserves (args : Namespace) (j : nat)
      (st : state GPortalResolution) :
  preserves_inputs (st_df st)
    (st_df (fst (search_csv_row H resolution_from_int api_search args j st))).
Proof.
  rewrite search_csv_row_unfold.
  destruct (row_resolution _ _ _ _) as [res|e]; [|apply preserves_inputs_refl].
  destruct (row_is_skipped _ _ _); [apply preserves_inputs_refl|].
  cbv zeta.
  destruct (api_search j _) as [[r|]|e].
  - pose proof (to_dataframe_obj_preserves r j (st_df st)) as Hpre.
    destruct (to_dataframe_obj r _ _) as [d' [d''|e]]; cbn [fst] in Hpre.
    + destruct (j mod 100 =? 0)%nat; exact Hpre.
    + exact Hpre.
  - destruct (j mod 100 =? 0)%nat; apply preserves_inputs_refl.
  - apply preserves_inputs_refl.
Qed.

Lemma search_csv_loop_preserves (args : Namespace) (range : list nat) :
  forall st : state GPortalResolution,
    preserves_inputs (st_df st)
      (st_df (fst (search_csv_loop H resolution_from_int api_search
                     args range st))).
Proof.
  induction range as [|j range IH]; intros st.
  - apply preserves_inputs_refl.
  - cbn [search_csv_loop]. unfold mbind, SE_bind.
    pose proof (search_csv_row_preserves args j st) as Hrow.
    destruct (search_csv_row _ _ _ args j st) as [st1 [[]|e]]; cbn [fst] in Hrow.
    + eapply preserves_inputs_trans; [exact Hrow | apply IH].
    + exact Hrow.
Qed.

(** However a run of [search_csv] ends, the table it leaves has as many
    rows as the table it read, the columns it read are still the first
    columns in their order, and every cell outside the eight output
    columns (the date, the latitude, the longitude, ...) is as it was. *)
Theorem search_csv_preserves_inputs (args : Namespace) (df : DataFrame) :
  df_len (st_df (fst (search_csv H resolution_from_int api_search args df)))
  = df_len df
  /\ columns df
     `prefix_of`
     columns (st_df (fst (search_csv H resolution_from_int api_search args df)))
  /\ (forall i c,
        c ∉ OUTPUT_COLUMNS ->
        cell_lookup
          (st_df (fst (search_csv H resolution_from_int api_search args df))) i c
        = cell_lookup df i c).
Proof.
  change (preserves_inputs df
            (st_df (fst (search_csv H resolution_from_int api_search args df)))).
  unfold search_csv. destruct (api args); [|apply preserves_inputs_refl].
  unfold mbind, SE_bind.
  pose proof (search_csv_loop_preserves args (seq 0 (df_len df))
                {| st_df := df; st_log := [] |}) as Hloop.
  destruct (search_csv_loop _ _ _ args _ _) as [st1 [[]|e]]; cbn [fst st_df] in Hloop.
  - cbn [to_csv]. destruct (download args); exact Hloop.
  - exact Hloop.
Qed.

Lemma progress_count_app (l l' : list (event GPortalResolution)) :
  progress_count (l ++ l') = (progress_count l + progress_count l')%nat.
Proof. unfold progress_count. rewrite List.filter_app, length_app. reflexivity. Qed.

(** One row in the log: a row that ends normally moves the progress bar by
    one and is searched unless it is skipped; a row that raises leaves the
    bar where it was. *)
Lemma search_csv_row_log (args : Namespace) (j : nat)
      (st : state GPortalResolution) :
  exists l,
    searched_rows
      (st_log (fst (search_csv_row H resolution_from_int api_search args j st)))
    = (searched_rows (st_log st) ++ l)%list
    /\ match snd (search_csv_row H resolution_from_int api_search args j st) with
       | Ok _ =>
           progress_count
             (st_log (fst (search_csv_row H resolution_from_int api_search
                             args j st)))
           = S (progress_count (st_log st))
           /\ l = (if row_is_skipped args (st_df st) j then [] else [j])
       | Raise _ =>
           progress_count
             (st_log (fst (search_csv_row H resolution_from_int api_search
                             args j st)))
           = progress_count (st_log st)
           /\ (l = [] \/ l = [j])
       end.
Proof.
  rewrite search_csv_row_unfold.
  destruct (row_resolution _ _ _ _) as [res|e].
  2:{ exists []. cbn [fst snd]. rewrite app_nil_r. auto. }
  destruct (row_is_skipped _ _ _).
  { exists []. cbn [fst snd st_log].
    rewrite searched_rows_app, progress_count_app. cbn. split; [reflexivity|].
    split; [lia | reflexivity]. }
  cbv zeta.
  set (q := row_query (st_df st) j res).
  assert (forall d (b : bool),
             let st2 := {| st_df := d;
                           st_log := ((st_log st ++ [EvSearch j q])
                                      ++ [EvProgress])%list |} in
             let r := if b then to_csv st2 else (st2, Ok tt) in
             snd r = Ok tt
             /\ searched_rows (st_log (fst r)) = (searched_rows (st_log st) ++ [j])%list
             /\ progress_count (st_log (fst r)) = S (progress_count (st_log st)))
    as Hafter.
  { intros d b st2 r. subst r st2.
    destruct b; cbn [to_csv fst snd st_log];
      rewrite ?searched_rows_app, ?progress_count_app; cbn;
      rewrite ?app_nil_r; (split; [reflexivity|]); (split; [reflexivity|lia]). }
  destruct (api_search j q) as [[r|]|e].
  - destruct (to_dataframe_obj r _ _) as [d' [d''|e]].
    + destruct (Hafter d' (j mod 100 =? 0)%nat) as (Hok & Hs & Hp).
      exists [j]. rewrite Hok. auto.
    + exists [j]. cbn [fst snd st_log].
      rewrite searched_rows_app, progress_count_app. cbn.
      split; [reflexivity|]. split; [lia | auto].
  - destruct (Hafter (st_df st) (j mod 100 =? 0)%nat) as (Hok & Hs & Hp).
    exists [j]. rewrite Hok. auto.
  - exists [j]. cbn [fst snd st_log].
    rewrite searched_rows_app, progress_count_app. cbn.
    split; [reflexivity|]. split; [lia | auto].
Qed.

Lemma search_csv_loop_log (args : Namespace) (range : list nat) :
  forall st : state GPortalResolution,
  exists l,
    searched_rows
      (st_log (fst (search_csv_loop H resolution_from_int api_search
                      args range st)))
    = (searched_rows (st_log st) ++ l)%list
    /\ l `sublist_of` range
    /\ (snd (search_csv_loop H resolution_from_int api_search args range st)
        = Ok tt ->
        progress_count
          (st_log (fst (search_csv_loop H resolution_from_int api_search
                          args range st)))
        = (progress_count (st_log st) + length range)%nat
        /\ (no_repeat args = false -> l = range)).
Proof.
  induction range as [|j range IH]; intros st.
  - exists []. cbn. rewrite app_nil_r. split; [reflexivity|].
    split; [constructor|]. intros _. split; [lia | reflexivity].
  - cbn [search_csv_loop]. unfold mbind, SE_bind.
    destruct (search_csv_row_log args j st) as (l1 & Hs1 & Hrow).
    destruct (search_csv_row _ _ _ args j st) as [st1 [[]|e]] eqn:Hstep;
      cbn [fst snd] in Hs1, Hrow.
    + destruct Hrow as [Hp1 Hl1].
      destruct (IH st1) as (l2 & Hs2 & Hsub & Hok).
      exists (l1 ++ l2)%list. rewrite Hs2, Hs1, app_assoc.
      split; [reflexivity|]. split.
      * rewrite Hl1. destruct (row_is_skipped _ _ _); cbn [app].
        -- apply sublist_cons, Hsub.
        -- apply sublist_skip, Hsub.
      * intros Hret. destruct (Hok Hret) as [Hp2 Hall].
        rewrite Hp2, Hp1. split; [cbn; lia|].
        intros Hrep. rewrite (Hall Hrep), Hl1.
        unfold row_is_skipped. rewrite Hrep, andb_false_r. reflexivity.
    + destruct Hrow as [_ Hl1]. exists l1. cbn [fst snd].
      split; [exact Hs1|]. split; [|discriminate].
      destruct Hl1 as [-> | ->].
      * apply sublist_nil_l.
      * apply sublist_skip, sublist_nil_l.
Qed.

(** Rows are searched strictly in table order and never twice: whatever
    happens, the rows for which a search was issued form a sub-sequence of
    0, 1, ..., len(df) - 1. *)
Theorem search_csv_rows_in_order (args : Namespace) (df : DataFrame) :
  searched_rows
    (st_log (fst (search_csv H resolution_from_int api_search args df)))
  `sublist_of` seq 0 (df_len df).
Proof.
  unfold search_csv. destruct (api args); [|apply sublist_nil_l].
  unfold mbind, SE_bind.
  destruct (search_csv_loop_log args (seq 0 (df_len df))
              {| st_df := df; st_log := [] |}) as (l & Hs & Hsub & _).
  cbn [st_log searched_rows flat_map app] in Hs.
  destruct (search_csv_loop _ _ _ args _ _) as [st1 [[]|e]]; cbn [fst] in Hs.
  - cbn [to_csv]. destruct (download args); cbn [emit mret SE_ret fst st_log];
      rewrite ?searched_rows_app, Hs; cbn; rewrite ?app_nil_r; exact Hsub.
  - cbn [fst]. rewrite Hs. exact Hsub.
Qed.

(** A run that returns has moved the progress bar once for every row of
    the table, skipped rows included; and with skipping disabled it has
    searched every row, once each, in table order. *)
Theorem search_csv_returns_complete (args : Namespace) (df : DataFrame) :
  snd (search_csv H resolution_from_int api_search args df) = Returned ->
  progress_count
    (st_log (fst (search_csv H resolution_from_int api_search args df)))
  = df_len df
  /\ (no_repeat args = false ->
      searched_rows
        (st_log (fst (search_csv H resolution_from_int api_search args df)))
      = seq 0 (df_len df)).
Proof.
  unfold search_csv. destruct (api args); [|discriminate].
  unfold mbind, SE_bind.
  destruct (search_csv_loop_log args (seq 0 (df_len df))
              {| st_df := df; st_log := [] |}) as (l & Hs & _ & Hok).
  cbn [st_log searched_rows flat_map app] in Hs.
  destruct (search_csv_loop _ _ _ args _ _) as [st1 [[]|e]];
    cbn [fst snd] in Hs, Hok; [|discriminate].
  intros _. destruct (Hok eq_refl) as [Hp Hall].
  rewrite length_seq in Hp. cbn in Hp.
  cbn [to_csv]. destruct (download args); cbn [emit mret SE_ret fst st_log];
    rewrite ?searched_rows_app, ?progress_count_app, Hs, Hp; cbn;
    rewrite ?app_nil_r; (split; [lia|]); intros Hrep; apply Hall, Hrep.
Qed.

End RunInvariants.

Lemma search_csv_returns_complete_witness :
  snd (search_csv Res250 example_from_int search_deep args_plain table_done_middle)
  = Returned
  /\ progress_count
       (st_log (fst (search_csv Res250 example_from_int search_deep
                       args_plain table_done_middle)))
     = df_len table_done_middle
  /\ searched_rows
       (st_log (fst (search_csv Res250 example_from_int search_deep
                       args_plain table_done_middle)))
     = seq 0 (df_len table_done_middle).
Proof.
  assert (snd (search_csv Res250 example_from_int search_deep args_plain
                 table_done_middle) = Returned) as Hret
      by (vm_compute; reflexivity).
  destruct (search_csv_returns_complete example_resolution Res250
              example_from_int search_deep args_plain table_done_middle Hret)
    as [Hp Hall].
  split; [exact Hret|]. split; [exact Hp|]. exact (Hall eq_refl).
Defined.

(** ** [search]: one query *)

Lemma print_product_cases (r : GPortalResponse) :
  match previews (properties r) with
  | [] => print_product r = Raise IndexError
  | _ :: _ => print_product r = Ok (SePrintProduct r)
  end.
Proof.
  unfold print_product, preview_url0, py_getitem.
  destruct (previews (properties r)); reflexivity.
Qed.

(** [search] returns normally exactly when the catalogue is GPortal and the
    search found a product that has a preview.  A download is started only
    then, only when asked for, and only for that product's address.  When
    nothing was found, the call ends in an [AttributeError] right after
    the heading has been printed. *)
Theorem search_outcomes (found : result (option GPortalResponse))
        (args : Namespace) :
  (snd (search found args) = SearchReturned
   <-> api args = GPORTAL
       /\ exists r p ps, found = Ok (Some r) /\ previews (properties r) = p :: ps)
  /\ (forall u,
        SeDownload u ∈ fst (search found args)
        <-> api args = GPORTAL /\ download args = true
            /\ exists r p ps,
                 found = Ok (Some r) /\ previews (properties r) = p :: ps
                 /\ u = downloadUrl (product (properties r)))
  /\ (api args = GPORTAL -> found = Ok None ->
      search found args = ([SePrint "returned results: "], SearchAttributeError)).
Proof.
  unfold search. destruct (api args).
  2:{ split; [|split].
      - split; [discriminate | intros [? _]; discriminate].
      - intros u. split; [|intros [? _]; discriminate].
        cbn. intros Hin. apply list_elem_of_singleton in Hin. discriminate.
      - discriminate. }
  destruct found as [[r|]|e].
  - pose proof (print_product_cases r) as Hprint.
    destruct (previews (properties r)) as [|p ps] eqn:Hprev.
    + rewrite Hprint. split; [|split].
      * split; [discriminate|].
        intros (_ & r' & p' & ps' & [= <-] & Hp). congruence.
      * intros u. split.
        -- cbn. intros Hin. apply list_elem_of_singleton in Hin. discriminate.
        -- intros (_ & _ & r' & p' & ps' & [= <-] & Hp & _). congruence.
      * discriminate.
    + rewrite Hprint. split; [|split].
      * split; [|reflexivity]. intros _. split; [reflexivity|]. eauto.
      * intros u. cbn [fst]. destruct (download args) eqn:Hd.
        -- split.
           ++ intros Hin. cbn in Hin.
              apply elem_of_cons in Hin as [Hin|Hin]; [discriminate|].
              apply elem_of_cons in Hin as [Hin|Hin]; [discriminate|].
              apply list_elem_of_singleton in Hin. injection Hin as ->.
              split; [reflexivity|]. split; [reflexivity|]. eauto 10.
           ++ intros (_ & _ & r' & p' & ps' & [= <-] & _ & ->). cbn.
              do 2 apply list_elem_of_further. apply list_elem_of_here.
        -- split.
           ++ intros Hin. cbn in Hin.
              apply elem_of_cons in Hin as [Hin|Hin]; [discriminate|].
              apply list_elem_of_singleton in Hin. discriminate.
           ++ intros (_ & ? & _). discriminate.
      * discriminate.
  - split; [|split].
    + split; [discriminate|]. intros (_ & r' & p' & ps' & Hf & _). discriminate.
    + intros u. split.
      * cbn. intros Hin. apply list_elem_of_singleton in Hin. discriminate.
      * intros (_ & _ & r' & p' & ps' & Hf & _). discriminate.
    + reflexivity.
  - split; [|split].
    + split; [discriminate|]. intros (_ & r' & p' & ps' & Hf & _). discriminate.
    + intros u. split.
      * cbn. intros Hin. inversion Hin.
      * intros (_ & _ & r' & p' & ps' & Hf & _). discriminate.
    + discriminate.
Qed.

(** ** The JASMES extractor *)

Section ExtractorProperties.

Variable astype_float32 : Qc -> Qc.
Variable np_abs_diff : Qc -> Qc -> Qc.
Variable rescale : Qc -> Qc -> Qc -> Qc -> Qc -> option Qc.

Lemma find_nearest_spec (arr : list Qc) (target : Qc) :
  forall (i : nat) (dist : Qc) (index : Z),
    (find_nearest np_abs_diff i arr target dist index = index
     /\ forall l, l ∈ arr -> (dist <= np_abs_diff l target)%Qc)
    \/ (exists k l,
          find_nearest np_abs_diff i arr target dist index = Z.of_nat (i + k)
          /\ arr !! k = Some l
          /\ (np_abs_diff l target < dist)%Qc
          /\ (forall k' l', arr !! k' = Some l' ->
                            (np_abs_diff l target <= np_abs_diff l' target)%Qc)
          /\ (forall k' l', (k' < k)%nat -> arr !! k' = Some l' ->
                            (np_abs_diff l target < np_abs_diff l' target)%Qc)).
Proof.
  induction arr as [|l0 arr IH]; intros i dist index.
  - left. split; [reflexivity|]. intros l Hl. inversion Hl.
  - cbn [find_nearest].
    destruct (decide (np_abs_diff l0 target < dist)%Qc) as [Hlt|Hge].
    + right.
      destruct (IH (S i) (np_abs_diff l0 target) (Z.of_nat i))
        as [[Hres Hall] | (k & l & Hres & Hk & Hd & Hmin & Hfirst)].
      * exists O, l0. rewrite Hres, Nat.add_0_r.
        split; [reflexivity|]. split; [reflexivity|]. split; [exact Hlt|]. split.
        -- intros [|k'] l' Hl'; cbn in Hl'.
           ++ injection Hl' as <-. apply Qcle_refl.
           ++ apply Hall. eapply list_elem_of_lookup_2, Hl'.
        -- intros k' l' Hk'. lia.
      * exists (S k), l. rewrite Hres.
        split; [f_equal; lia|]. split; [exact Hk|].
        split; [eapply Qclt_trans; eassumption|]. split.
        -- intros [|k'] l' Hl'; cbn in Hl'.
           ++ injection Hl' as <-. apply Qclt_le_weak, Hd.
           ++ apply (Hmin k'), Hl'.
        -- intros [|k'] l' Hk' Hl'; cbn in Hl'.
           ++ injection Hl' as <-. exact Hd.
           ++ apply (Hfirst k'); [lia | exact Hl'].
    + apply Qcnot_lt_le in Hge.
      destruct (IH (S i) dist index)
        as [[Hres Hall] | (k & l & Hres & Hk & Hd & Hmin & Hfirst)].
      * left. split; [exact Hres|]. intros l Hl.
        apply elem_of_cons in Hl as [->|Hl]; [exact Hge | apply Hall, Hl].
      * right. exists (S k), l. rewrite Hres.
        split; [f_equal; lia|]. split; [exact Hk|]. split; [exact Hd|].
        assert (np_abs_diff l target < np_abs_diff l0 target)%Qc as Hl0
            by (eapply Qclt_le_trans; eassumption).
        split.
        -- intros [|k'] l' Hl'; cbn in Hl'.
           ++ injection Hl' as <-. apply Qclt_le_weak, Hl0.
           ++ apply (Hmin k'), Hl'.
        -- intros [|k'] l' Hk' Hl'; cbn in Hl'.
           ++ injection Hl' as <-. exact Hl0.
           ++ apply (Hfirst k'); [lia | exact Hl'].
Qed.

Lemma find_nearest_least (arr : list Qc) (target : Qc) :
  is_least_distance_index np_abs_diff arr target
    (find_nearest np_abs_diff 0 arr target (Qc_of_Z 1000) (-1)).
Proof.
  destruct (find_nearest_spec arr target 0 (Qc_of_Z 1000) (-1))
    as [[Hres Hall] | (k & l & Hres & Hk & Hd & Hmin & Hfirst)].
  - left. split; assumption.
  - right. exists k, l. rewrite Hres. cbn [Nat.add]. repeat split; assumption.
Qed.

(** [__find_entry] looks up latitude and longitude independently.  Along
    each axis it compares the distances [np.abs(l - target)] as computed in
    floating point and returns the position of the entry whose computed
    distance is the least, the first one among entries of equal computed
    distance; when no computed distance of the axis (none at all, for an
    empty axis) is below 1000 it returns [-1]. *)
Theorem find_entry_least_computed_distance
        (lat_arr lon_arr : list Qc) (lat lon : Qc) :
  is_least_distance_index np_abs_diff lat_arr lat
    (fst (find_entry np_abs_diff lat_arr lon_arr lat lon))
  /\ is_least_distance_index np_abs_diff lon_arr lon
       (snd (find_entry np_abs_diff lat_arr lon_arr lat lon)).
Proof. split; apply find_nearest_least. Qed.

Lemma np_axis_map {A B : Type} (f : A -> B) (l : list A) (k : Z) :
  np_axis (map f l) k = (a ← np_axis l k; Extracted (f a)).
Proof.
  unfold np_axis. rewrite length_map.
  destruct (index_getitem (length l) k) as [j|e]; [|reflexivity].
  change (map f l) with (f <$> l). rewrite list_lookup_fmap.
  destruct (l !! j); reflexivity.
Qed.

Lemma np_index2_map {A B : Type} (f : A -> B) (grid : list (list A)) (row col : Z) :
  np_index2 (map (map f) grid) row col
  = (v ← np_index2 grid row col; Extracted (f v)).
Proof.
  unfold np_index2. rewrite np_axis_map.
  destruct (np_axis grid row) as [r|e]; [|reflexivity].
  cbn [mbind extracted_bind]. apply np_axis_map.
Qed.

Lemma np_axis_last {A : Type} (l : list A) (x : A) :
  np_axis (l ++ [x]) (-1) = Extracted x.
Proof.
  unfold np_axis, index_getitem. rewrite length_app. cbn [length].
  replace (0 <=? -1) with false by reflexivity. cbn [andb].
  replace (- Z.of_nat (length l + 1) <=? -1) with true
    by (symmetry; apply Z.leb_le; lia).
  replace (-1 <? 0) with true by reflexivity. cbn [andb].
  replace (Z.to_nat (Z.of_nat (length l + 1) + -1)) with (length l) by lia.
  rewrite lookup_app_r by lia. rewrite Nat.sub_diag. reflexivity.
Qed.

Lemma find_nearest_far (arr : list Qc) (target : Qc) :
  (forall l, l ∈ arr -> (Qc_of_Z 1000 <= np_abs_diff l target)%Qc) ->
  find_nearest np_abs_diff 0 arr target (Qc_of_Z 1000) (-1) = -1.
Proof.
  intros Hfar.
  destruct (find_nearest_spec arr target 0 (Qc_of_Z 1000) (-1))
    as [[Hres _] | (k & l & _ & Hk & Hd & _)]; [exact Hres|].
  exfalso. apply (Qclt_not_le _ _ Hd), Hfar.
  eapply list_elem_of_lookup_2, Hk.
Qed.

Lemma get_pixel_plain_eq (nc : Dataset) (prod : string) (lat lon : Qc)
      (lats lons : list Qc) (data : NcVariable) :
  String.prefix "NWL" prod = false ->
  Latitude nc = Some lats ->
  Longitude nc = Some lons ->
  variables nc !! prod = Some data ->
  get_pixel astype_float32 np_abs_diff rescale nc prod lat lon
  = (v ← np_index2 (var_data data)
           (fst (find_entry np_abs_diff lats lons lat lon))
           (snd (find_entry np_abs_diff lats lons lat lon));
     Extracted (<[prod ++ "_JASMES"
                  := dn_clean data (option_map astype_float32 v)]>
                (∅ : gmap string (option Qc)))).
Proof.
  intros Hprefix Hlat Hlon Hvar.
  unfold get_pixel, get_lat_lon. rewrite Hlat, Hlon.
  cbn [mbind extracted_bind fst snd].
  destruct (find_entry np_abs_diff lats lons lat lon) as [row col] eqn:Hfind.
  rewrite Hprefix. unfold handle_digital_number. rewrite Hvar.
  cbn [handle_digital_number_var mbind extracted_bind fst snd].
  rewrite !np_index2_map.
  destruct (np_index2 (var_data data) row col); reflexivity.
Qed.

(** For a product whose name does not start with "NWL", [get_pixel] reads
    the grid at the row and column that [__find_entry] gives and returns
    that one value under the key [<name>_JASMES], cast to float32 and
    masked: casting and cleaning the whole grid and then reading the pixel
    gives what reading the pixel and then casting and cleaning it gives.
    The only failure left is a row or column outside the grid. *)
Theorem get_pixel_plain (nc : Dataset) (prod : string) (lat lon : Qc)
        (lats lons : list Qc) (data : NcVariable) :
  String.prefix "NWL" prod = false ->
  Latitude nc = Some lats ->
  Longitude nc = Some lons ->
  variables nc !! prod = Some data ->
  get_pixel astype_float32 np_abs_diff rescale nc prod lat lon
  = (v ← np_index2 (var_data data)
           (fst (find_entry np_abs_diff lats lons lat lon))
           (snd (find_entry np_abs_diff lats lons lat lon));
     Extracted (<[prod ++ "_JASMES"
                  := dn_clean data (option_map astype_float32 v)]>
                (∅ : gmap string (option Qc)))).
Proof. apply get_pixel_plain_eq. Qed.

(** When no latitude of the file has a computed distance below 1000 from
    the latitude asked for, the row found is [-1], which the grid access
    counts from the end: [get_pixel] then silently reads the last row of
    the grid. *)
Theorem get_pixel_far_latitude (nc : Dataset) (prod : string) (lat lon : Qc)
        (lats lons : list Qc) (data : NcVariable)
        (before : list (list (option Qc))) (last_row : list (option Qc)) :
  String.prefix "NWL" prod = false ->
  Latitude nc = Some lats ->
  Longitude nc = Some lons ->
  variables nc !! prod = Some data ->
  var_data data = (before ++ [last_row])%list ->
  (forall l, l ∈ lats -> (Qc_of_Z 1000 <= np_abs_diff l lat)%Qc) ->
  get_pixel astype_float32 np_abs_diff rescale nc prod lat lon
  = (v ← np_axis last_row (snd (find_entry np_abs_diff lats lons lat lon));
     Extracted (<[prod ++ "_JASMES"
                  := dn_clean data (option_map astype_float32 v)]>
                (∅ : gmap string (option Qc)))).
Proof.
  intros Hprefix Hlat Hlon Hvar Hgrid Hfar.
  rewrite (get_pixel_plain_eq nc prod lat lon lats lons data
             Hprefix Hlat Hlon Hvar).
  unfold find_entry at 1. cbn [fst].
  rewrite (find_nearest_far lats lat Hfar), Hgrid.
  unfold np_index2. rewrite np_axis_last. reflexivity.
Qed.

(** The Rrs variant of [__handle_digital_number] needs all four scaling
    attributes and fails with an [AttributeError] when one is absent.
    When it succeeds its grid has the shape of the file's grid, and a
    value that is masked after the cast (or NaN in the file) is NaN in the
    result, whatever the rescaling of the other values gives. *)
Theorem handle_digital_number_rrs (data : NcVariable) :
  ((exists e, handle_digital_number_var astype_float32 rescale data true = Failed e)
   <-> Rrs_scale_factor data = None \/ Rrs_add_offset data = None
       \/ add_offset data = None \/ scale_factor data = None)
  /\ (forall e, handle_digital_number_var astype_float32 rescale data true = Failed e ->
                exists name, e = AttributeError name)
  /\ (forall grid,
        handle_digital_number_var astype_float32 rescale data true = Extracted grid ->
        length grid = length (var_data data)
        /\ forall r c row raw,
             var_data data !! r = Some row ->
             row !! c = Some raw ->
             exists row' v,
               grid !! r = Some row' /\ length row' = length row
               /\ row' !! c = Some v
               /\ (dn_clean data (option_map astype_float32 raw) = None
                   -> v = None)).
Proof.
  unfold handle_digital_number_var.
  destruct (Rrs_scale_factor data) as [scale|];
    [|split; [split; [auto | intros _; eexists; reflexivity]|];
      split; [intros e [= <-]; eauto | discriminate]].
  destruct (Rrs_add_offset data) as [offset|];
    [|split; [split; [auto | intros _; eexists; reflexivity]|];
      split; [intros e [= <-]; eauto | discriminate]].
  destruct (add_offset data) as [add|];
    [|split; [split; [auto | intros _; eexists; reflexivity]|];
      split; [intros e [= <-]; eauto | discriminate]].
  destruct (scale_factor data) as [factor|];
    [|split; [split; [auto 6 | intros _; eexists; reflexivity]|];
      split; [intros e [= <-]; eauto | discriminate]].
  cbn [getattr mbind extracted_bind].
  split; [|split].
  - split; [intros [e He]; discriminate|].
    intros [Hn|[Hn|[Hn|Hn]]]; discriminate.
  - discriminate.
  - intros grid [= <-]. split; [rewrite !length_map; reflexivity|].
    intros r c row raw Hrow Hraw.
    exists (map (fun raw0 : option Qc =>
                   raw0 ≫= fun x => rescale x add factor scale offset)
                (map (dn_clean data) (map (option_map astype_float32) row))),
           (dn_clean data (option_map astype_float32 raw)
              ≫= fun x => rescale x add factor scale offset).
    split.
    { change (map ?f ?l) with (f <$> l). rewrite !list_lookup_fmap, Hrow.
      reflexivity. }
    split; [rewrite !length_map; reflexivity|]. split.
    { change (map ?f ?l) with (f <$> l). rewrite !list_lookup_fmap, Hraw.
      reflexivity. }
    intros ->. reflexivity.
Qed.

End ExtractorProperties.

Example find_entry_on_example_axes :
  find_entry np_abs_diff_small [Qc_of_Z 36; Qc_of_Z 35]
             [Qc_of_Z 138; Qc_of_Z 139; Qc_of_Z 140] lat35 lon139
  = (1, 1)
  /\ find_entry np_abs_diff_small [Qc_of_Z 34; Qc_of_Z 36] [] lat35 lon139
     = (0, -1).
Proof. split; vm_compute; reflexivity. Qed.

Lemma get_pixel_plain_witness :
  String.prefix "NWL" "CHLA" = false
  /\ Latitude nc_example = Some [Qc_of_Z 36; Qc_of_Z 35]
  /\ Longitude nc_example = Some [Qc_of_Z 138; Qc_of_Z 139; Qc_of_Z 140]
  /\ variables nc_example !! "CHLA" = Some var_chla
  /\ get_pixel astype_float32_small np_abs_diff_small rescale_exact
       nc_example "CHLA" lat35 lon139
     = Extracted (<["CHLA_JASMES" := None]> (∅ : gmap string (option Qc)))
  /\ get_pixel astype_float32_small np_abs_diff_small rescale_exact
       nc_example "CHLA" lat35 (Qc_of_Z 138)
     = Extracted (<["CHLA_JASMES" := Some (Qc_of_Z 40)]>
                  (∅ : gmap string (option Qc))).
Proof.
  assert (variables nc_example !! "CHLA" = Some var_chla) as Hvar
      by (vm_compute; reflexivity).
  split; [reflexivity|]. split; [reflexivity|]. split; [reflexivity|].
  split; [exact Hvar|]. split.
  - rewrite (get_pixel_plain astype_float32_small np_abs_diff_small rescale_exact
               nc_example "CHLA" lat35 lon139
               [Qc_of_Z 36; Qc_of_Z 35] [Qc_of_Z 138; Qc_of_Z 139; Qc_of_Z 140]
               var_chla eq_refl eq_refl eq_refl Hvar).
    vm_compute. reflexivity.
  - rewrite (get_pixel_plain astype_float32_small np_abs_diff_small rescale_exact
               nc_example "CHLA" lat35 (Qc_of_Z 138)
               [Qc_of_Z 36; Qc_of_Z 35] [Qc_of_Z 138; Qc_of_Z 139; Qc_of_Z 140]
               var_chla eq_refl eq_refl eq_refl Hvar).
    vm_compute. reflexivity.
Defined.

Lemma get_pixel_far_latitude_witness :
  String.prefix "NWL" "CHLA" = false
  /\ Latitude nc_example = Some [Qc_of_Z 36; Qc_of_Z 35]
  /\ Longitude nc_example = Some [Qc_of_Z 138; Qc_of_Z 139; Qc_of_Z 140]
  /\ variables nc_example !! "CHLA" = Some var_chla
  /\ var_data var_chla
     = ([ [Some (Qc_of_Z 10); Some (Qc_of_Z 255); Some (Qc_of_Z 30)] ]
        ++ [ [Some (Qc_of_Z 40); Some (Qc_of_Z 101); None] ])%list
  /\ (forall l, l ∈ [Qc_of_Z 36; Qc_of_Z 35] ->
                (Qc_of_Z 1000 <= np_abs_diff_small l (Qc_of_Z 5000))%Qc)
  /\ get_pixel astype_float32_small np_abs_diff_small rescale_exact
       nc_example "CHLA" (Qc_of_Z 5000) (Qc_of_Z 138)
     = Extracted (<["CHLA_JASMES" := Some (Qc_of_Z 40)]>
                  (∅ : gmap string (option Qc))).
Proof.
  assert (variables nc_example !! "CHLA" = Some var_chla) as Hvar
      by (vm_compute; reflexivity).
  assert (forall l, l ∈ [Qc_of_Z 36; Qc_of_Z 35] ->
                    (Qc_of_Z 1000 <= np_abs_diff_small l (Qc_of_Z 5000))%Qc) as Hfar.
  { intros l Hl.
    apply elem_of_cons in Hl as [->|Hl]; [vm_compute; discriminate|].
    apply list_elem_of_singleton in Hl as ->. vm_compute. discriminate. }
  split; [reflexivity|]. split; [reflexivity|]. split; [reflexivity|].
  split; [exact Hvar|]. split; [reflexivity|]. split; [exact Hfar|].
  rewrite (get_pixel_far_latitude astype_float32_small np_abs_diff_small
             rescale_exact nc_example "CHLA"
             (Qc_of_Z 5000) (Qc_of_Z 138)
             [Qc_of_Z 36; Qc_of_Z 35] [Qc_of_Z 138; Qc_of_Z 139; Qc_of_Z 140]
             var_chla
             [ [Some (Qc_of_Z 10); Some (Qc_of_Z 255); Some (Qc_of_Z 30)] ]
             [Some (Qc_of_Z 40); Some (Qc_of_Z 101); None]
             eq_refl eq_refl eq_refl Hvar eq_refl Hfar).
  vm_compute. reflexivity.
Defined.

(** For a product of the "NWL" family both values are read at the same
    pixel; the second key is the name with "NWLR" replaced by "Rrs". *)
Example get_pixel_nwlr :
  py_replace "NWLR" "Rrs" "NWLR_380" = "Rrs_380"
  /\ match get_pixel astype_float32_small np_abs_diff_small rescale_exact
             nc_example "NWLR_380" lat35 (Qc_of_Z 138) with
     | Extracted m =>
         option_map (option_map this) (m !! "NWLR_380_JASMES")
         = Some (Some (8 # 1)%Q)
         /\ option_map (option_map this) (m !! "Rrs_380_JASMES")
            = Some (Some (13 # 1)%Q)
     | Failed _ => False
     end
  /\ match get_pixel astype_float32_small np_abs_diff_small rescale_exact
             nc_example "NWLR_380" lat35 lon139 with
     | Extracted m =>
         m !! "NWLR_380_JASMES" = Some None
         /\ m !! "Rrs_380_JASMES" = Some None
     | Failed _ => False
     end.
Proof. split; [reflexivity|]. split; vm_compute; split; reflexivity. Qed.
